(** * Shallow embedding of the dbt operator and of the dbt-to-Airflow converter

    Two source files are embedded:
    - [providers/dbt/core/operators.py], class [DBTBaseOperator]
      (module [Operators] below);
    - [cosmos/converter.py], [validate_arguments] and
      [DbtToAirflowConverter.__init__] (module [Converter] below).

    Python values that may be [None] are carried by [pyval]; dictionaries are
    [gmap]s keyed by strings, with Python's right-biased [dict.update] and
    [d1 | d2] written out as [py_update]; code that raises or touches the
    outside world runs in a small state-and-exception monad. *)

From Stdlib Require Import Ascii.
From stdpp Require Import gmap strings list fin_maps pretty.

(** ** Python values and exceptions *)

Inductive pyval :=
  | PyNone
  | PyStr (s : string)
  | PyBool (b : bool)
  | PyInt (z : Z).

#[global] Instance pyval_eq_dec : EqDecision pyval.
Proof. solve_decision. Defined.

(** [str(v)] *)
Definition py_str (v : pyval) : string :=
  match v with
  | PyNone => "None"
  | PyStr s => s
  | PyBool true => "True"
  | PyBool false => "False"
  | PyInt z => pretty z
  end.

(** [v is not None] *)
Definition is_not_none (v : pyval) : bool :=
  match v with PyNone => false | _ => true end.

(** [v is True] *)
Definition is_true (v : pyval) : bool :=
  match v with PyBool true => true | _ => false end.

(** An optional [str] argument ([x: str = None]) seen as a Python value. *)
Definition of_opt_str (o : option string) : pyval :=
  match o with Some s => PyStr s | None => PyNone end.

Definition of_opt_int (o : option Z) : pyval :=
  match o with Some z => PyInt z | None => PyNone end.

(** [d.update(other)] and [d | other]: the keys of [other] win. *)
Definition py_update {V} (d other : gmap string V) : gmap string V := other ∪ d.

(** [s.replace(a, b)] for one-character [a] and [b]. *)
Fixpoint replace (a b : ascii) (s : string) : string :=
  match s with
  | EmptyString => EmptyString
  | String c s' => String (if decide (c = a) then b else c) (replace a b s')
  end.

Inductive exn :=
  | AirflowException (msg : string)
  | AirflowSkipException (msg : string)
  | AirflowNotFoundException (msg : string)
  | AttributeError (msg : string)
  | FileExistsError (path : string)
  | FileNotFoundError (path : string)
  | NotADirectoryError (path : string)
  | IsADirectoryError (path : string)
  | ValueError (msg : string)
  | UserInputError (msg : string)
  | SystemExit (code : Z).

Inductive outcome (A : Type) :=
  | Ret (a : A)
  | Raise (e : exn).
Arguments Ret {A} a.
Arguments Raise {A} e.

(** ** State and exceptions

    A computation reads and writes a state of type [S] and either returns
    or raises; the state reached when it raises is kept, as in Python. *)

Definition ST (S A : Type) : Type := S → outcome A * S.

Definition ret {S A} (a : A) : ST S A := λ w, (Ret a, w).
Definition raise {S A} (e : exn) : ST S A := λ w, (Raise e, w).
Definition bind {S A B} (c : ST S A) (k : A → ST S B) : ST S B :=
  λ w, match c w with
       | (Ret a, w') => k a w'
       | (Raise e, w') => (Raise e, w')
       end.
Definition lift {S A} (o : outcome A) : ST S A := λ w, (o, w).

Notation "'let!' x ':=' c 'in' k" := (bind c (λ x, k))
  (at level 10, x pattern, c at level 100, k at level 200).
Notation "c '>>' k" := (bind c (λ _, k))
  (at level 100, k at level 200, right associativity).

Module Operators.

(** ** The operator's fields ([DBTBaseOperator.__init__]) *)

Record DBTBaseOperator := {
  project_dir : option string;
  conn_id : string;
  base_cmd : option string;
  select : option string;
  exclude : option string;
  selector : option string;
  vars : option string;
  models : option string;
  cache_selected_only : bool;
  no_version_check : bool;
  fail_fast : bool;
  quiet : bool;
  warn_error : bool;
  schema : option string;
  env : option (gmap string pyval);
  append_env : bool;
  output_encoding : string;
  skip_exit_code : option Z
}.

(** The keyword defaults of [__init__]; [project_dir] and [conn_id] are
    the two required arguments. *)
Definition init (project_dir : option string) (conn_id : string) : DBTBaseOperator :=
  {| project_dir := project_dir; conn_id := conn_id; base_cmd := None;
     select := None; exclude := None; selector := None; vars := None;
     models := None; cache_selected_only := false; no_version_check := false;
     fail_fast := false; quiet := false; warn_error := false; schema := None;
     env := None; append_env := false; output_encoding := "utf-8";
     skip_exit_code := Some 99%Z |}.

(** [self.__getattribute__(name)] on the fields the flag loops read; an
    unknown name is Python's [AttributeError]. *)
Definition getattribute (self : DBTBaseOperator) (name : string) : outcome pyval :=
  if decide (name = "project_dir") then Ret (of_opt_str (project_dir self))
  else if decide (name = "select") then Ret (of_opt_str (select self))
  else if decide (name = "exclude") then Ret (of_opt_str (exclude self))
  else if decide (name = "selector") then Ret (of_opt_str (selector self))
  else if decide (name = "vars") then Ret (of_opt_str (vars self))
  else if decide (name = "models") then Ret (of_opt_str (models self))
  else if decide (name = "no_version_check") then Ret (PyBool (no_version_check self))
  else if decide (name = "cache_selected_only") then Ret (PyBool (cache_selected_only self))
  else if decide (name = "fail_fast") then Ret (PyBool (fail_fast self))
  else if decide (name = "quiet") then Ret (PyBool (quiet self))
  else if decide (name = "warn_error") then Ret (PyBool (warn_error self))
  else Raise (AttributeError name).

(** ** [add_global_flags] *)

Definition global_flags : list string :=
  ["project_dir"; "select"; "exclude"; "selector"; "vars"; "models"].

Definition global_boolean_flags : list string :=
  ["no_version_check"; "cache_selected_only"; "fail_fast"; "quiet"; "warn_error"].

(** [f"--{name.replace('_', '-')}"] *)
Definition dbt_name (name : string) : string := "--" +:+ replace "_"%char "-"%char name.

(** The first loop: [flags] is threaded through the iterations. *)
Fixpoint value_flags_loop (self : DBTBaseOperator) (names : list string)
    (flags : list pyval) : outcome (list pyval) :=
  match names with
  | [] => Ret flags
  | global_flag :: rest =>
      match getattribute self global_flag with
      | Raise e => Raise e
      | Ret global_flag_value =>
          if is_not_none global_flag_value
          then value_flags_loop self rest
                 (flags ++ [PyStr (dbt_name global_flag); PyStr (py_str global_flag_value)])
          else value_flags_loop self rest flags
      end
  end.

(** The second loop. *)
Fixpoint boolean_flags_loop (self : DBTBaseOperator) (names : list string)
    (flags : list pyval) : outcome (list pyval) :=
  match names with
  | [] => Ret flags
  | global_boolean_flag :: rest =>
      match getattribute self global_boolean_flag with
      | Raise e => Raise e
      | Ret global_boolean_flag_value =>
          if is_true global_boolean_flag_value
          then boolean_flags_loop self rest (flags ++ [PyStr (dbt_name global_boolean_flag)])
          else boolean_flags_loop self rest flags
      end
  end.

Definition add_global_flags (self : DBTBaseOperator) : outcome (list pyval) :=
  match value_flags_loop self global_flags [] with
  | Raise e => Raise e
  | Ret flags => boolean_flags_loop self global_boolean_flags flags
  end.

(** ** The outside world

    The filesystem maps a normalised absolute path to what is found there;
    the root directory is not an entry and always exists. *)

Inductive node :=
  | File (content : string)
  | Dir.

(** Airflow's [Connection] model: these are the attributes it has. *)
Record Connection := {
  c_conn_id : string;
  conn_type : string;
  description : option string;
  host : option string;
  c_schema : option string;
  login : option string;
  password : option string;
  port : option Z;
  extra : option string
}.

(** [getattr(conn, name)]; a name that is no attribute of [Connection]
    raises [AttributeError]. *)
Definition conn_getattr (conn : Connection) (name : string) : outcome pyval :=
  if decide (name = "conn_id") then Ret (PyStr (c_conn_id conn))
  else if decide (name = "conn_type") then Ret (PyStr (conn_type conn))
  else if decide (name = "description") then Ret (of_opt_str (description conn))
  else if decide (name = "host") then Ret (of_opt_str (host conn))
  else if decide (name = "schema") then Ret (of_opt_str (c_schema conn))
  else if decide (name = "login") then Ret (of_opt_str (login conn))
  else if decide (name = "password") then Ret (of_opt_str (password conn))
  else if decide (name = "port") then Ret (of_opt_int (port conn))
  else if decide (name = "extra") then Ret (of_opt_str (extra conn))
  else Raise (AttributeError ("'Connection' object has no attribute '" +:+ name +:+ "'")).

(** What [SubprocessHook.run_command] is called with, and what it returns. *)
Record Invocation := {
  command : list pyval;
  inv_env : gmap string pyval;
  inv_output_encoding : string;
  cwd : option string
}.

Record SubprocessResult := {
  exit_code : Z;
  output : string
}.

Record World := {
  fs : gmap string node;
  environ : gmap string string;
  connections : gmap string Connection;
  which : gmap string string;
  stdout : list string;
  stderr : list string;
  invocations : list Invocation
}.

Definition set_fs (f : gmap string node) (w : World) : World :=
  {| fs := f; environ := environ w; connections := connections w; which := which w;
     stdout := stdout w; stderr := stderr w; invocations := invocations w |}.

Definition add_stdout (line : string) (w : World) : World :=
  {| fs := fs w; environ := environ w; connections := connections w; which := which w;
     stdout := stdout w ++ [line]; stderr := stderr w; invocations := invocations w |}.

Definition add_stderr (line : string) (w : World) : World :=
  {| fs := fs w; environ := environ w; connections := connections w; which := which w;
     stdout := stdout w; stderr := stderr w ++ [line]; invocations := invocations w |}.

Definition add_invocation (i : Invocation) (w : World) : World :=
  {| fs := fs w; environ := environ w; connections := connections w; which := which w;
     stdout := stdout w; stderr := stderr w; invocations := invocations w ++ [i] |}.

(** YAML documents, as far as the default profile needs them: a scalar, or
    a mapping given entry by entry. *)
Inductive yaml :=
  | YStr (s : string)
  | YEmpty
  | YEntry (key : string) (value : yaml) (rest : yaml).

(** The library code the operator calls and this development does not look
    into: Airflow's [context_to_airflow_vars(context, in_env_var_format=True)],
    [yaml.dump], and the child process behind [SubprocessHook.run_command]. *)
Record Externals := {
  Context : Type;
  context_to_airflow_vars : Context → gmap string string;
  yaml_dump : yaml → string;
  subprocess : Invocation → SubprocessResult
}.

(** ** Effects on the world *)

Definition M (A : Type) : Type := ST World A.

(** [try: c except FileExistsError: pass] *)
Definition except_FileExistsError_pass (c : M unit) : M unit :=
  λ w, match c w with
       | (Raise (FileExistsError _), w') => (Ret tt, w')
       | r => r
       end.

Definition print (line : string) : M unit := λ w, (Ret tt, add_stdout line w).
Definition print_stderr (line : string) : M unit := λ w, (Ret tt, add_stderr line w).
(** [sys.exit(code)] raises [SystemExit]. *)
Definition sys_exit {A} (code : Z) : M A := raise (SystemExit code).

(** ** [os.path], [os.makedirs], [open(..., "w")], [shutil.which] *)

Definition os_path_exists (p : string) : M bool :=
  λ w, (Ret (match fs w !! p with Some _ => true | None => false end), w).

Definition os_path_isdir (p : string) : M bool :=
  λ w, (Ret (match fs w !! p with Some Dir => true | _ => false end), w).

(** The proper ancestors of a path below the root, deepest first:
    [ancestors "/a/b/c" = ["/a/b"; "/a"]]. *)
Fixpoint ancestors_go (pre s : string) (acc : list string) : list string :=
  match s with
  | EmptyString => acc
  | String c s' =>
      ancestors_go (pre +:+ String c EmptyString) s'
        (if decide (c = "/"%char) then (if decide (pre = "") then acc else pre :: acc) else acc)
  end.
Definition ancestors (p : string) : list string := ancestors_go "" p [].

(** [os.mkdir(p)], the parent of [p] being [parent] ([None]: the root). *)
Definition os_mkdir (parent : option string) (p : string) : M unit :=
  λ w, match fs w !! p with
       | Some _ => (Raise (FileExistsError p), w)
       | None =>
           match parent with
           | None => (Ret tt, set_fs (<[p := Dir]> (fs w)) w)
           | Some d =>
               match fs w !! d with
               | Some Dir => (Ret tt, set_fs (<[p := Dir]> (fs w)) w)
               | Some (File _) => (Raise (NotADirectoryError p), w)
               | None => (Raise (FileNotFoundError p), w)
               end
           end
       end.

(** [os.makedirs(name)] on the chain [name :: ancestors name]: the missing
    ancestors are made first, a [FileExistsError] from that being passed
    over, then [name] itself. *)
Fixpoint makedirs_chain (chain : list string) : M unit :=
  match chain with
  | [] => ret tt
  | name :: up =>
      (match up with
       | [] => ret tt
       | head :: _ =>
           let! e := os_path_exists head in
           if e then ret tt else except_FileExistsError_pass (makedirs_chain up)
       end) >>
      os_mkdir (hd_error up) name
  end.

Definition os_makedirs (name : string) : M unit := makedirs_chain (name :: ancestors name).

(** [with open(p, "w") as file: file.write(content)] *)
Definition open_w_write (p content : string) : M unit :=
  λ w, match fs w !! p with
       | Some Dir => (Raise (IsADirectoryError p), w)
       | _ =>
           match hd_error (ancestors p) with
           | None => (Ret tt, set_fs (<[p := File content]> (fs w)) w)
           | Some d =>
               match fs w !! d with
               | Some Dir => (Ret tt, set_fs (<[p := File content]> (fs w)) w)
               | Some (File _) => (Raise (NotADirectoryError p), w)
               | None => (Raise (FileNotFoundError p), w)
               end
           end
       end.

Definition shutil_which (name : string) : M (option string) :=
  λ w, (Ret (which w !! name), w).

(** [os.environ.copy()] *)
Definition os_environ_copy : M (gmap string pyval) :=
  λ w, (Ret (PyStr <$> environ w), w).

(** [BaseHook().get_connection(conn_id)] *)
Definition get_connection (conn_id : string) : M Connection :=
  λ w, match connections w !! conn_id with
       | Some conn => (Ret conn, w)
       | None => (Raise (AirflowNotFoundException
                           ("The conn_id `" +:+ conn_id +:+ "` isn't defined")), w)
       end.

(** ** The methods of [DBTBaseOperator] *)

Section Methods.
Context (ext : Externals).

Definition subprocess_hook_run_command (inv : Invocation) : M SubprocessResult :=
  λ w, (Ret (subprocess ext inv), add_invocation inv w).

(** [self.env] is updated in place when it is the dictionary returned; one
    [execute] never reads it again, so the returned dictionary is all that
    is kept here. The [log.debug] call has no effect on it. *)
Definition get_env (self : DBTBaseOperator) (context : Context ext)
    : M (gmap string pyval) :=
  let! system_env := os_environ_copy in
  let env1 :=
    match env self with
    | None => system_env
    | Some env0 => if append_env self then py_update system_env env0 else env0
    end in
  let airflow_context_vars := PyStr <$> context_to_airflow_vars ext context in
  ret (py_update env1 airflow_context_vars).

(** [shutil.which("dbt") or "dbt"] *)
Definition which_or (found : option string) (default : string) : string :=
  match found with
  | None => default
  | Some s => if decide (s = "") then default else s
  end.

Definition get_dbt_path (self : DBTBaseOperator) : M string :=
  let! found := shutil_which "dbt" in
  let dbt_path := which_or found "dbt" in
  (match project_dir self with
   | Some d =>
       let! e := os_path_exists d in
       if negb e then raise (AirflowException ("Can not find the project_dir: " +:+ d))
       else
         let! isd := os_path_isdir d in
         if negb isd
         then raise (AirflowException ("The project_dir " +:+ d +:+ " must be a directory"))
         else ret tt
   | None => ret tt
   end) >>
  ret dbt_path.

Definition exception_handling (self : DBTBaseOperator) (result : SubprocessResult)
    : outcome unit :=
  if match skip_exit_code self with
     | Some code => bool_decide (exit_code result = code)
     | None => false
     end
  then Raise (AirflowSkipException
                ("dbt command returned exit code "
                 +:+ py_str (of_opt_int (skip_exit_code self)) +:+ ". Skipping."))
  else if bool_decide (exit_code result ≠ 0%Z)
  then Raise (AirflowException
                ("dbt command failed. The command returned a non-zero exit code "
                 +:+ pretty (exit_code result) +:+ "."))
  else Ret tt.

Definition build_command (self : DBTBaseOperator) : M (list pyval) :=
  let! dbt_path := get_dbt_path self in
  let! flags := lift (add_global_flags self) in
  ret ([PyStr dbt_path; of_opt_str (base_cmd self)] ++ flags).

Definition run_command (self : DBTBaseOperator) (cmd : list pyval)
    (env1 : gmap string pyval) : M SubprocessResult :=
  let! result :=
    subprocess_hook_run_command
      {| command := cmd; inv_env := env1;
         inv_output_encoding := output_encoding self; cwd := project_dir self |} in
  lift (exception_handling self result) >>
  ret result.

Definition default_profile : yaml :=
  YEntry "postgres_profile"
    (YEntry "outputs"
       (YEntry "dev"
          (YEntry "type" (YStr "postgres")
          (YEntry "host" (YStr "{{ env_var('POSTGRES_HOST') }}")
          (YEntry "port" (YStr "{{ env_var('POSTGRES_PORT') | as_number }}")
          (YEntry "user" (YStr "{{ env_var('POSTGRES_USER') }}")
          (YEntry "pass" (YStr "{{ env_var('POSTGRES_PASSWORD') }}")
          (YEntry "dbname" (YStr "{{ env_var('POSTGRES_DATABASE') }}")
          (YEntry "schema" (YStr "{{ env_var('POSTGRES_SCHEMA') }}")
           YEmpty)))))))
          YEmpty)
    (YEntry "target" (YStr "dev") YEmpty))
    YEmpty.

Definition directory_path : string := "/home/astro/.dbt".
Definition file_path : string := "/home/astro/.dbt/profiles.yml".

Definition create_default_profiles : M unit :=
  let profile := default_profile in
  let! dir_exists := os_path_exists directory_path in
  (if negb dir_exists then os_makedirs directory_path else ret tt) >>
  let! file_exists := os_path_exists file_path in
  if negb file_exists
  then
    print "profiles.yml not found - initializing." >>
    open_w_write file_path (yaml_dump ext profile) >>
    print "done"
  else print "profiles.yml found - skipping".

Definition map_profile (self : DBTBaseOperator) : M (string * gmap string pyval) :=
  let! conn := get_connection (conn_id self) in
  if decide (conn_type conn = "postgres")
  then
    let profile := "postgres_profile" in
    let profile_vars : gmap string pyval :=
      <["POSTGRES_SCHEMA" := of_opt_str (schema self)]>
      (<["POSTGRES_PORT" := PyStr (py_str (of_opt_int (port conn)))]>
      (<["POSTGRES_DATABASE" := of_opt_str (c_schema conn)]>
      (<["POSTGRES_PASSWORD" := of_opt_str (password conn)]>
      (<["POSTGRES_USER" := of_opt_str (login conn)]>
      (<["POSTGRES_HOST" := of_opt_str (host conn)]> ∅))))) in
    ret (profile, profile_vars)
  else
    let! type := lift (conn_getattr conn "type") in
    print_stderr ("Connection type " +:+ py_str type +:+ " is not yet supported.") >>
    sys_exit 1.

Definition execute (self : DBTBaseOperator) (context : Context ext) : M string :=
  create_default_profiles >>
  let! (profile, profile_vars) := map_profile self in
  let! env0 := get_env self context in
  let env1 := py_update env0 profile_vars in
  let target_flag := [PyStr "--profile"; PyStr profile] in
  let! cmd0 := build_command self in
  let cmd := cmd0 ++ target_flag in
  let! result := run_command self cmd env1 in
  ret (output result).

End Methods.

End Operators.

Module Converter.

(** ** What [converter.py] imports

    [cosmos.constants], [cosmos.dbt.selector], [cosmos.dbt.project],
    [cosmos.dbt.graph] and [cosmos.airflow.graph] are used through their
    interface only. A call that may raise returns an [outcome]. *)

Record Externals := {
  Any : Type;
  ProfileConfig : Type;
  DAG : Type;
  TaskGroup : Type;
  Callable : Type;
  TestBehavior : Type;
  ExecutionMode : Type;
  LoadMode : Type;
  DbtProject : Type;
  DbtGraph : Type;
  Nodes : Type;
  (** [enum_class(value)] for a [str]; [None] stands for [ValueError]. *)
  TestBehavior_of : string → option TestBehavior;
  ExecutionMode_of : string → option ExecutionMode;
  LoadMode_of : string → option LoadMode;
  (** [member == s] for a member of [ExecutionMode] and a [str]. *)
  ExecutionMode_eq_str : ExecutionMode → string → bool;
  (** [retrieve_by_label(statement_list, label)] *)
  retrieve_by_label : list string → string → list string;
  (** how Python prints a set of [str] inside an f-string *)
  format_set : gset string → string;
  new_DbtProject :
    string → string → option string → option string → option string → option string →
    outcome DbtProject;
  DbtProject_dir : DbtProject → Any;
  DbtProject_name : DbtProject → string;
  get_system_dbt : Any;
  new_DbtGraph : DbtProject → list string → list string → Any → outcome DbtGraph;
  DbtGraph_load : DbtGraph → LoadMode → ExecutionMode → outcome DbtGraph;
  DbtGraph_nodes : DbtGraph → Nodes;
  DAG_bool : DAG → bool;
  TaskGroup_bool : TaskGroup → bool;
  TaskGroup_dag : TaskGroup → option DAG;
  any_of_profile_config : option ProfileConfig → Any
}.

Section Init.
Context (ext : Externals).

(** The value of [dag or (task_group and task_group.dag)]. *)
Inductive dag_argument :=
  | ArgDag (d : DAG ext)
  | ArgTaskGroup (g : TaskGroup ext)
  | ArgNone.

(** The keyword arguments [build_airflow_graph] is called with. *)
Record BuildCall := {
  b_nodes : Nodes ext;
  b_dag : dag_argument;
  b_task_group : option (TaskGroup ext);
  b_execution_mode : ExecutionMode ext;
  b_task_args : gmap string (Any ext);
  b_test_behavior : TestBehavior ext;
  b_dbt_project_name : string;
  b_on_warning_callback : option (Callable ext);
  b_emit_datasets : bool
}.

(** The state of a conversion is the list of calls made to
    [build_airflow_graph], the one place where task objects are created. *)
Definition C (A : Type) : Type := ST (list BuildCall) A.

(** What each call to [build_airflow_graph] does besides being recorded is
    up to [cosmos.airflow.graph]. *)
Definition build_airflow_graph (result : BuildCall → outcome unit) (call : BuildCall)
    : C unit :=
  λ calls, (result call, calls ++ [call]).

(** [field[:-1]] *)
Fixpoint drop_last (s : string) : string :=
  match s with
  | EmptyString => EmptyString
  | String c EmptyString => EmptyString
  | String c s' => String c (drop_last s')
  end.

(** One iteration of the loop over [("tags", "paths")]. *)
Definition validate_field (select exclude : list string) (field : string) : outcome unit :=
  let select_items := retrieve_by_label ext select field in
  let exclude_items := retrieve_by_label ext exclude field in
  let intersection : gset string :=
    list_to_set select_items ∩ list_to_set exclude_items in
  if decide (intersection ≠ ∅)
  then Raise (AirflowException
                ("Can't specify the same " +:+ drop_last field
                 +:+ " in `select` and `exclude`: " +:+ format_set ext intersection))
  else Ret tt.

Fixpoint validate_fields (select exclude : list string) (fields : list string)
    : outcome unit :=
  match fields with
  | [] => Ret tt
  | field :: rest =>
      match validate_field select exclude field with
      | Raise e => Raise e
      | Ret _ => validate_fields select exclude rest
      end
  end.

Definition validate_arguments (select exclude : list string)
    (task_args : gmap string (Any ext)) : outcome unit :=
  match validate_fields select exclude ["tags"; "paths"] with
  | Raise e => Raise e
  | Ret _ =>
      if decide (is_Some (task_args !! "schema"))
      then Raise (AirflowException
                    "The `schema` argument is no longer supported. Please use the `profile_args` instead.")
      else Ret tt
  end.

(** [convert_value_to_enum(value, enum_class)]: [inl] is a [str], [inr] a
    member already. *)
Definition convert_value_to_enum {E : Type} (value : string + E)
    (enum_class : string → option E) (enum_class_name : string) : outcome E :=
  match value with
  | inl s =>
      match enum_class s with
      | Some member => Ret member
      | None => Raise (UserInputError
                         ("The given value " +:+ s +:+ " is not compatible with the type "
                          +:+ enum_class_name))
      end
  | inr member => Ret member
  end.

(** The arguments of [DbtToAirflowConverter.__init__]. *)
Record InitArgs := {
  dbt_project_name : string;
  profile_config : option (ProfileConfig ext);
  dag : option (DAG ext);
  task_group : option (TaskGroup ext);
  dbt_args : gmap string (Any ext);
  operator_args : gmap string (Any ext);
  emit_datasets : bool;
  dbt_root_path : string;
  dbt_models_dir : option string;
  dbt_seeds_dir : option string;
  dbt_snapshots_dir : option string;
  test_behavior : string + TestBehavior ext;
  select : option (list string);
  exclude : option (list string);
  execution_mode : string + ExecutionMode ext;
  load_mode : string + LoadMode ext;
  manifest_path : option string;
  on_warning_callback : option (Callable ext)
}.

(** [x or []] for an optional list. *)
Definition or_empty (x : option (list string)) : list string :=
  match x with Some l => l | None => [] end.

(** [execution_mode in ["local", "virtualenv"]] *)
Definition in_local_or_virtualenv (mode : string + ExecutionMode ext) : bool :=
  match mode with
  | inl s => bool_decide (s = "local") || bool_decide (s = "virtualenv")
  | inr m => ExecutionMode_eq_str ext m "local" || ExecutionMode_eq_str ext m "virtualenv"
  end.

(** [dag or (task_group and task_group.dag)] *)
Definition dag_or_task_group_dag (dag : option (DAG ext))
    (task_group : option (TaskGroup ext)) : dag_argument :=
  let right :=
    match task_group with
    | None => ArgNone
    | Some g =>
        if TaskGroup_bool ext g
        then match TaskGroup_dag ext g with Some d => ArgDag d | None => ArgNone end
        else ArgTaskGroup g
    end in
  match dag with
  | Some d => if DAG_bool ext d then ArgDag d else right
  | None => right
  end.

(** [{**dbt_args, **operator_args, "project_dir": ..., "profile_config": ...}] *)
Definition make_task_args (a : InitArgs) (project : DbtProject ext)
    : gmap string (Any ext) :=
  <["profile_config" := any_of_profile_config ext (profile_config a)]>
  (<["project_dir" := DbtProject_dir ext project]>
  (py_update (dbt_args a) (operator_args a))).

Definition init (built : BuildCall → outcome unit) (a : InitArgs) : C unit :=
  let select := or_empty (select a) in
  let exclude := or_empty (exclude a) in
  (if in_local_or_virtualenv (execution_mode a)
      && match profile_config a with None => true | Some _ => false end
   then raise (ValueError
                 "When using local or virtualenv execution mode, a ProfileConfig must be provided to render the profile.")
   else ret tt) >>
  let! test_behavior :=
    lift (convert_value_to_enum (test_behavior a) (TestBehavior_of ext) "TestBehavior") in
  let! execution_mode :=
    lift (convert_value_to_enum (execution_mode a) (ExecutionMode_of ext) "ExecutionMode") in
  let! load_mode :=
    lift (convert_value_to_enum (load_mode a) (LoadMode_of ext) "LoadMode") in
  let! dbt_project :=
    lift (new_DbtProject ext (dbt_project_name a) (dbt_root_path a) (dbt_models_dir a)
            (dbt_seeds_dir a) (dbt_snapshots_dir a) (manifest_path a)) in
  let! dbt_graph :=
    lift (new_DbtGraph ext dbt_project exclude select
            (default (get_system_dbt ext) (dbt_args a !! "dbt_executable_path"))) in
  let! dbt_graph := lift (DbtGraph_load ext dbt_graph load_mode execution_mode) in
  let task_args := make_task_args a dbt_project in
  lift (validate_arguments select exclude task_args) >>
  build_airflow_graph built
    {| b_nodes := DbtGraph_nodes ext dbt_graph;
       b_dag := dag_or_task_group_dag (dag a) (task_group a);
       b_task_group := task_group a;
       b_execution_mode := execution_mode;
       b_task_args := task_args;
       b_test_behavior := test_behavior;
       b_dbt_project_name := DbtProject_name ext dbt_project;
       b_on_warning_callback := on_warning_callback a;
       b_emit_datasets := emit_datasets a |}.

End Init.

End Converter.

(** * Properties of the operator *)

Module OperatorFacts.
Import Operators.

(** ** The command line as the specification words it *)

(** A value-carrying flag: [--flag value] when the field is set. *)
Definition flag_pair (flag : string) (value : option string) : list pyval :=
  match value with
  | Some s => [PyStr flag; PyStr s]
  | None => []
  end.

(** A boolean flag: the bare flag when the field is [True]. *)
Definition bare_flag (flag : string) (value : bool) : list pyval :=
  if value then [PyStr flag] else [].

Definition flags_in_order (self : DBTBaseOperator) : list pyval :=
  flag_pair "--project-dir" (project_dir self)
  ++ flag_pair "--select" (select self)
  ++ flag_pair "--exclude" (exclude self)
  ++ flag_pair "--selector" (selector self)
  ++ flag_pair "--vars" (vars self)
  ++ flag_pair "--models" (models self)
  ++ bare_flag "--no-version-check" (no_version_check self)
  ++ bare_flag "--cache-selected-only" (cache_selected_only self)
  ++ bare_flag "--fail-fast" (fail_fast self)
  ++ bare_flag "--quiet" (quiet self)
  ++ bare_flag "--warn-error" (warn_error self).

Definition value_flags_in_order (self : DBTBaseOperator) : list pyval :=
  flag_pair "--project-dir" (project_dir self)
  ++ flag_pair "--select" (select self)
  ++ flag_pair "--exclude" (exclude self)
  ++ flag_pair "--selector" (selector self)
  ++ flag_pair "--vars" (vars self)
  ++ flag_pair "--models" (models self).

Definition boolean_flags_in_order (self : DBTBaseOperator) : list pyval :=
  bare_flag "--no-version-check" (no_version_check self)
  ++ bare_flag "--cache-selected-only" (cache_selected_only self)
  ++ bare_flag "--fail-fast" (fail_fast self)
  ++ bare_flag "--quiet" (quiet self)
  ++ bare_flag "--warn-error" (warn_error self).

Lemma flags_in_order_split (self : DBTBaseOperator) :
  flags_in_order self = value_flags_in_order self ++ boolean_flags_in_order self.
Proof.
  unfold flags_in_order, value_flags_in_order, boolean_flags_in_order.
  by rewrite <- !app_assoc.
Qed.

Lemma value_flags_loop_step (self : DBTBaseOperator) (name : string)
    (rest : list string) (flags : list pyval) (value : option string) :
  getattribute self name = Ret (of_opt_str value) →
  value_flags_loop self (name :: rest) flags
  = value_flags_loop self rest (flags ++ flag_pair (dbt_name name) value).
Proof.
  intros Hget. cbn [value_flags_loop]. rewrite Hget.
  destruct value; cbn; by rewrite ?app_nil_r.
Qed.

Lemma boolean_flags_loop_step (self : DBTBaseOperator) (name : string)
    (rest : list string) (flags : list pyval) (value : bool) :
  getattribute self name = Ret (PyBool value) →
  boolean_flags_loop self (name :: rest) flags
  = boolean_flags_loop self rest (flags ++ bare_flag (dbt_name name) value).
Proof.
  intros Hget. cbn [boolean_flags_loop]. rewrite Hget.
  destruct value; cbn; by rewrite ?app_nil_r.
Qed.

Lemma value_flags_loop_in_order (self : DBTBaseOperator) (flags : list pyval) :
  value_flags_loop self global_flags flags = Ret (flags ++ value_flags_in_order self).
Proof.
  unfold global_flags, value_flags_in_order.
  rewrite (value_flags_loop_step self "project_dir" _ _ (project_dir self)) by reflexivity.
  rewrite (value_flags_loop_step self "select" _ _ (select self)) by reflexivity.
  rewrite (value_flags_loop_step self "exclude" _ _ (exclude self)) by reflexivity.
  rewrite (value_flags_loop_step self "selector" _ _ (selector self)) by reflexivity.
  rewrite (value_flags_loop_step self "vars" _ _ (vars self)) by reflexivity.
  rewrite (value_flags_loop_step self "models" _ _ (models self)) by reflexivity.
  cbn [value_flags_loop]. rewrite <- !app_assoc. reflexivity.
Qed.

Lemma boolean_flags_loop_in_order (self : DBTBaseOperator) (flags : list pyval) :
  boolean_flags_loop self global_boolean_flags flags
  = Ret (flags ++ boolean_flags_in_order self).
Proof.
  unfold global_boolean_flags, boolean_flags_in_order.
  rewrite (boolean_flags_loop_step self "no_version_check" _ _ (no_version_check self))
    by reflexivity.
  rewrite (boolean_flags_loop_step self "cache_selected_only" _ _ (cache_selected_only self))
    by reflexivity.
  rewrite (boolean_flags_loop_step self "fail_fast" _ _ (fail_fast self)) by reflexivity.
  rewrite (boolean_flags_loop_step self "quiet" _ _ (quiet self)) by reflexivity.
  rewrite (boolean_flags_loop_step self "warn_error" _ _ (warn_error self)) by reflexivity.
  cbn [boolean_flags_loop]. rewrite <- !app_assoc. reflexivity.
Qed.

Lemma add_global_flags_in_order (self : DBTBaseOperator) :
  add_global_flags self = Ret (flags_in_order self).
Proof.
  unfold add_global_flags.
  rewrite value_flags_loop_in_order, boolean_flags_loop_in_order.
  by rewrite flags_in_order_split.
Qed.

(** ** What a computation leaves alone *)

(** [w'] differs from [w] in the filesystem and the standard output only. *)
Definition fs_stdout_only (w w' : World) : Prop :=
  environ w' = environ w ∧ connections w' = connections w ∧ which w' = which w
  ∧ stderr w' = stderr w ∧ invocations w' = invocations w.

Definition preserves {A} (c : M A) : Prop := ∀ w, fs_stdout_only w (c w).2.

Lemma fs_stdout_only_refl (w : World) : fs_stdout_only w w.
Proof. by repeat split. Qed.

Lemma fs_stdout_only_trans (w1 w2 w3 : World) :
  fs_stdout_only w1 w2 → fs_stdout_only w2 w3 → fs_stdout_only w1 w3.
Proof.
  unfold fs_stdout_only. intros (? & ? & ? & ? & ?) (? & ? & ? & ? & ?).
  repeat split; congruence.
Qed.

Lemma preserves_ret {A} (a : A) : preserves (ret a).
Proof. intros w. apply fs_stdout_only_refl. Qed.

Lemma preserves_raise {A} (e : exn) : preserves (@raise World A e).
Proof. intros w. apply fs_stdout_only_refl. Qed.

Lemma preserves_bind {A B} (c : M A) (k : A → M B) :
  preserves c → (∀ a, preserves (k a)) → preserves (bind c k).
Proof.
  intros Hc Hk w. unfold bind. specialize (Hc w).
  destruct (c w) as [[a | e] w1]; cbn in *; [| done].
  eapply fs_stdout_only_trans; [exact Hc | apply Hk].
Qed.

Lemma preserves_print (line : string) : preserves (print line).
Proof. intros w. by repeat split. Qed.

Lemma preserves_os_path_exists (p : string) : preserves (os_path_exists p).
Proof. intros w. apply fs_stdout_only_refl. Qed.

Lemma preserves_os_mkdir (parent : option string) (p : string) :
  preserves (os_mkdir parent p).
Proof.
  intros w. unfold os_mkdir.
  destruct (fs w !! p); [apply fs_stdout_only_refl |].
  destruct parent as [d |]; [| by repeat split].
  destruct (fs w !! d) as [[c |] |]; by repeat split.
Qed.

Lemma preserves_except (c : M unit) :
  preserves c → preserves (except_FileExistsError_pass c).
Proof.
  intros Hc w. unfold except_FileExistsError_pass. specialize (Hc w).
  destruct (c w) as [[[] | []] w1]; exact Hc.
Qed.

Lemma preserves_makedirs_chain (chain : list string) : preserves (makedirs_chain chain).
Proof.
  induction chain as [| name up IH]; [apply preserves_ret |].
  cbn [makedirs_chain]. apply preserves_bind; [| intros _; apply preserves_os_mkdir].
  destruct up as [| head up']; [apply preserves_ret |].
  apply preserves_bind; [apply preserves_os_path_exists |].
  intros [|]; [apply preserves_ret | by apply preserves_except].
Qed.

Lemma preserves_open_w_write (p content : string) : preserves (open_w_write p content).
Proof.
  intros w. unfold open_w_write.
  assert (Hw : fs_stdout_only w (set_fs (<[p := File content]> (fs w)) w))
    by (by repeat split).
  destruct (fs w !! p) as [[c |] |]; [| apply fs_stdout_only_refl |];
    (destruct (hd_error (ancestors p)) as [d |]; [| exact Hw];
     destruct (fs w !! d) as [[c' |] |]; first [exact Hw | apply fs_stdout_only_refl]).
Qed.

Section Runs.
Context (ext : Externals).

Lemma preserves_create_default_profiles : preserves (create_default_profiles ext).
Proof.
  unfold create_default_profiles.
  apply preserves_bind; [apply preserves_os_path_exists |]. intros e1.
  apply preserves_bind.
  { destruct e1; [apply preserves_ret | apply preserves_makedirs_chain]. }
  intros _. apply preserves_bind; [apply preserves_os_path_exists |]. intros e2.
  destruct e2; cbn [negb]; [apply preserves_print |].
  apply preserves_bind; [apply preserves_print |]. intros _.
  apply preserves_bind; [apply preserves_open_w_write |]. intros _.
  apply preserves_print.
Qed.

(** The credential-derived variables for a postgres connection. *)
Definition profile_vars_of (self : DBTBaseOperator) (conn : Connection)
    : gmap string pyval :=
  <["POSTGRES_SCHEMA" := of_opt_str (schema self)]>
  (<["POSTGRES_PORT" := PyStr (py_str (of_opt_int (port conn)))]>
  (<["POSTGRES_DATABASE" := of_opt_str (c_schema conn)]>
  (<["POSTGRES_PASSWORD" := of_opt_str (password conn)]>
  (<["POSTGRES_USER" := of_opt_str (login conn)]>
  (<["POSTGRES_HOST" := of_opt_str (host conn)]> ∅))))).

Definition no_type_attribute : exn :=
  AttributeError "'Connection' object has no attribute 'type'".

Lemma map_profile_run (self : DBTBaseOperator) (w : World) :
  map_profile self w =
  match connections w !! conn_id self with
  | None =>
      (Raise (AirflowNotFoundException
                ("The conn_id `" +:+ conn_id self +:+ "` isn't defined")), w)
  | Some conn =>
      if decide (conn_type conn = "postgres")
      then (Ret ("postgres_profile", profile_vars_of self conn), w)
      else (Raise no_type_attribute, w)
  end.
Proof.
  unfold map_profile, bind, get_connection.
  destruct (connections w !! conn_id self) as [conn |]; [| done].
  by destruct (decide (conn_type conn = "postgres")).
Qed.

(** The environment [get_env] builds from the process environment. *)
Definition merged_env (self : DBTBaseOperator) (context : Context ext)
    (process_env : gmap string string) : gmap string pyval :=
  py_update
    match env self with
    | None => PyStr <$> process_env
    | Some env0 => if append_env self then py_update (PyStr <$> process_env) env0 else env0
    end
    (PyStr <$> context_to_airflow_vars ext context).

Lemma get_env_run (self : DBTBaseOperator) (context : Context ext) (w : World) :
  get_env ext self context w = (Ret (merged_env self context (environ w)), w).
Proof. reflexivity. Qed.

(** The exception [get_dbt_path] raises on a filesystem, if any. *)
Definition project_dir_error (self : DBTBaseOperator) (files : gmap string node)
    : option exn :=
  match project_dir self with
  | None => None
  | Some d =>
      match files !! d with
      | None => Some (AirflowException ("Can not find the project_dir: " +:+ d))
      | Some (File _) =>
          Some (AirflowException ("The project_dir " +:+ d +:+ " must be a directory"))
      | Some Dir => None
      end
  end.

Definition dbt_path_of (w : World) : string := which_or (which w !! "dbt") "dbt".

Lemma get_dbt_path_run (self : DBTBaseOperator) (w : World) :
  get_dbt_path self w =
  (match project_dir_error self (fs w) with
   | Some e => Raise e
   | None => Ret (dbt_path_of w)
   end, w).
Proof.
  unfold get_dbt_path, project_dir_error, bind, shutil_which, os_path_exists,
    os_path_isdir, dbt_path_of, ret, raise.
  destruct (project_dir self) as [d |]; [| done].
  destruct (fs w !! d) as [[c |] |] eqn:Hd; cbn; by rewrite ?Hd.
Qed.

Lemma build_command_run (self : DBTBaseOperator) (w : World) :
  build_command self w =
  (match project_dir_error self (fs w) with
   | Some e => Raise e
   | None => Ret (PyStr (dbt_path_of w) :: of_opt_str (base_cmd self) :: flags_in_order self)
   end, w).
Proof.
  unfold build_command, bind. rewrite get_dbt_path_run.
  destruct (project_dir_error self (fs w)); [done |].
  unfold lift. by rewrite add_global_flags_in_order.
Qed.

(** What [execute] hands to the subprocess hook, for a postgres connection. *)
Definition the_invocation (self : DBTBaseOperator) (context : Context ext)
    (w : World) (conn : Connection) : Invocation :=
  {| command :=
       (PyStr (dbt_path_of w) :: of_opt_str (base_cmd self) :: flags_in_order self)
       ++ [PyStr "--profile"; PyStr "postgres_profile"];
     inv_env := py_update (merged_env self context (environ w)) (profile_vars_of self conn);
     inv_output_encoding := output_encoding self;
     cwd := project_dir self |}.

(** What [execute] makes of a subprocess result. *)
Definition classify (self : DBTBaseOperator) (result : SubprocessResult) : outcome string :=
  match exception_handling self result with
  | Raise e => Raise e
  | Ret _ => Ret (output result)
  end.

Lemma execute_run (self : DBTBaseOperator) (context : Context ext) (w : World) :
  execute ext self context w =
  match create_default_profiles ext w with
  | (Raise e, w1) => (Raise e, w1)
  | (Ret _, w1) =>
      match connections w !! conn_id self with
      | None =>
          (Raise (AirflowNotFoundException
                    ("The conn_id `" +:+ conn_id self +:+ "` isn't defined")), w1)
      | Some conn =>
          if decide (conn_type conn = "postgres")
          then
            match project_dir_error self (fs w1) with
            | Some e => (Raise e, w1)
            | None =>
                let inv := the_invocation self context w conn in
                (classify self (subprocess ext inv), add_invocation inv w1)
            end
          else (Raise no_type_attribute, w1)
      end
  end.
Proof.
  unfold execute. unfold bind at 1.
  pose proof (preserves_create_default_profiles w) as Hw.
  destruct (create_default_profiles ext w) as [[[] | e] w1]; [| done].
  destruct Hw as (Henv & Hconn & Hwhich & _ & _); cbn in Henv, Hconn, Hwhich.
  unfold bind at 1. rewrite map_profile_run, Hconn.
  destruct (connections w !! conn_id self) as [conn |]; [| done].
  destruct (decide (conn_type conn = "postgres")); [| done].
  unfold bind at 1. rewrite get_env_run, Henv.
  unfold bind at 1. rewrite build_command_run.
  destruct (project_dir_error self (fs w1)); [done |].
  unfold bind, run_command, bind, subprocess_hook_run_command, lift, ret,
    the_invocation, classify, dbt_path_of.
  rewrite Hwhich. cbn.
  by destruct (exception_handling self _).
Qed.

(** Either no subprocess is started and [execute] raises, or exactly one
    is, for a postgres connection, and its result decides the outcome. *)
Lemma execute_cases (self : DBTBaseOperator) (context : Context ext) (w : World) :
  ((∃ e, (execute ext self context w).1 = Raise e)
   ∧ invocations (execute ext self context w).2 = invocations w)
  ∨ (∃ conn,
       connections w !! conn_id self = Some conn
       ∧ conn_type conn = "postgres"
       ∧ invocations (execute ext self context w).2
         = invocations w ++ [the_invocation self context w conn]
       ∧ (execute ext self context w).1
         = classify self (subprocess ext (the_invocation self context w conn))).
Proof.
  rewrite execute_run.
  pose proof (preserves_create_default_profiles w) as Hw.
  destruct (create_default_profiles ext w) as [[[] | e] w1];
    destruct Hw as (_ & _ & _ & _ & Hinv); cbn in Hinv; [| left; eauto].
  destruct (connections w !! conn_id self) as [conn |]; [| left; eauto].
  destruct (decide (conn_type conn = "postgres")); [| left; eauto].
  destruct (project_dir_error self (fs w1)); [left; eauto |].
  right. exists conn. cbn. by rewrite Hinv.
Qed.

Lemma execute_outcome_of_invocation (self : DBTBaseOperator) (context : Context ext)
    (w : World) (inv : Invocation) :
  invocations (execute ext self context w).2 = invocations w ++ [inv] →
  ∃ conn,
    connections w !! conn_id self = Some conn
    ∧ conn_type conn = "postgres"
    ∧ inv = the_invocation self context w conn
    ∧ (execute ext self context w).1 = classify self (subprocess ext inv).
Proof.
  intros Hinv.
  destruct (execute_cases self context w) as [[_ Hsame] | (conn & Hc & Ht & Hone & Hres)].
  - rewrite Hsame in Hinv. apply (f_equal length) in Hinv.
    rewrite length_app in Hinv. cbn in Hinv. lia.
  - rewrite Hone in Hinv. apply app_inj_tail in Hinv as [_ <-]. eauto.
Qed.

End Runs.

(** ** A small world to run the operator in *)

(** A stand-in for [yaml.dump] in the examples: one line per entry. *)
Fixpoint render_yaml (indent : string) (doc : yaml) : string :=
  match doc with
  | YStr s => s
  | YEmpty => ""
  | YEntry key (YStr s) rest =>
      indent +:+ key +:+ ": " +:+ s +:+ ";" +:+ render_yaml indent rest
  | YEntry key value rest =>
      indent +:+ key +:+ ":;" +:+ render_yaml ("  " +:+ indent) value
      +:+ render_yaml indent rest
  end.

Definition example_ext (result : SubprocessResult) : Externals :=
  {| Context := unit;
     context_to_airflow_vars := λ _, {["AIRFLOW_CTX_DAG_ID" := "jaffle_shop"]};
     yaml_dump := render_yaml "";
     subprocess := λ _, result |}.

Definition example_connection (type : string) : Connection :=
  {| c_conn_id := "warehouse"; conn_type := type; description := None;
     host := Some "db.local"; c_schema := Some "shop"; login := Some "dbt";
     password := Some "secret"; port := Some 5432%Z; extra := None |}.

Definition example_world (type : string) : World :=
  {| fs := {["/x" := Dir]};
     environ := {["HOME" := "/root"]};
     connections := {["warehouse" := example_connection type]};
     which := {["dbt" := "/usr/local/bin/dbt"]};
     stdout := []; stderr := []; invocations := [] |}.

(** [DBTBaseOperator(project_dir="/x", conn_id="warehouse", select="tag:a",
    fail_fast=True, schema=..., env=..., append_env=..., skip_exit_code=...)] *)
Definition example_with (schema : option string) (env : option (gmap string pyval))
    (append_env : bool) (skip_exit_code : option Z) : DBTBaseOperator :=
  {| project_dir := Some "/x"; conn_id := "warehouse"; base_cmd := None;
     select := Some "tag:a"; exclude := None; selector := None; vars := None;
     models := None; cache_selected_only := false; no_version_check := false;
     fail_fast := true; quiet := false; warn_error := false; schema := schema;
     env := env; append_env := append_env; output_encoding := "utf-8";
     skip_exit_code := skip_exit_code |}.

(** The same with the defaults of [__init__] for the last four. *)
Definition example_operator : DBTBaseOperator :=
  example_with None None false (Some 99%Z).

Example example_execute :
  execute (example_ext {| exit_code := 0; output := "Done." |}) example_operator tt
    (example_world "postgres")
  = (Ret "Done.",
     add_invocation
       (the_invocation (example_ext {| exit_code := 0; output := "Done." |})
          example_operator tt (example_world "postgres") (example_connection "postgres"))
       (create_default_profiles (example_ext {| exit_code := 0; output := "Done." |})
          (example_world "postgres")).2).
Proof. vm_compute. reflexivity. Qed.

(** ** The command line *)


(** C5. An operator with [project_dir="/x"], [select="tag:a"],
    [fail_fast=True] and every other flag field at its default has exactly
    the flags [--project-dir /x --select tag:a --fail-fast], and, "/x" being a
    directory, [build_command] returns exactly the dbt path, the base
    command and these five tokens. *)
Theorem example_command_tokens (self : DBTBaseOperator) (w : World) :
  project_dir self = Some "/x" →
  select self = Some "tag:a" →
  fail_fast self = true →
  exclude self = None → selector self = None → vars self = None → models self = None →
  no_version_check self = false → cache_selected_only self = false →
  quiet self = false → warn_error self = false →
  add_global_flags self
  = Ret [PyStr "--project-dir"; PyStr "/x"; PyStr "--select"; PyStr "tag:a";
         PyStr "--fail-fast"]
  ∧ (fs w !! "/x" = Some Dir →
     build_command self w
     = (Ret [PyStr (dbt_path_of w); of_opt_str (base_cmd self);
             PyStr "--project-dir"; PyStr "/x"; PyStr "--select"; PyStr "tag:a";
             PyStr "--fail-fast"], w)).
Proof.
  intros Hpd Hse Hff Hex Hsr Hva Hmo Hnv Hcs Hqu Hwe.
  assert (Hflags : flags_in_order self
                   = [PyStr "--project-dir"; PyStr "/x"; PyStr "--select";
                      PyStr "tag:a"; PyStr "--fail-fast"]).
  { unfold flags_in_order.
    by rewrite Hpd, Hse, Hff, Hex, Hsr, Hva, Hmo, Hnv, Hcs, Hqu, Hwe. }
  split.
  - by rewrite add_global_flags_in_order, Hflags.
  - intros Hdir. rewrite build_command_run. unfold project_dir_error.
    by rewrite Hpd, Hdir, Hflags.
Qed.

Lemma example_command_tokens_witness :
  add_global_flags example_operator
  = Ret [PyStr "--project-dir"; PyStr "/x"; PyStr "--select"; PyStr "tag:a";
         PyStr "--fail-fast"]
  ∧ build_command example_operator (example_world "postgres")
    = (Ret [PyStr "/usr/local/bin/dbt"; PyNone;
            PyStr "--project-dir"; PyStr "/x"; PyStr "--select"; PyStr "tag:a";
            PyStr "--fail-fast"], example_world "postgres").
Proof.
  destruct (example_command_tokens example_operator (example_world "postgres"))
    as [Hflags Hcmd]; try reflexivity.
  split; [exact Hflags |].
  apply Hcmd. vm_compute. reflexivity.
Defined.




(** ** Exit codes *)

Definition skip_message (code : Z) : string :=
  "dbt command returned exit code " +:+ pretty code +:+ ". Skipping.".

Definition failure_message (code : Z) : string :=
  "dbt command failed. The command returned a non-zero exit code "
  +:+ pretty code +:+ ".".

Lemma exception_handling_skip (self : DBTBaseOperator) (result : SubprocessResult) :
  skip_exit_code self = Some (exit_code result) →
  exception_handling self result
  = Raise (AirflowSkipException (skip_message (exit_code result))).
Proof.
  intros Hskip. unfold exception_handling. rewrite Hskip.
  by rewrite bool_decide_eq_true_2.
Qed.

Lemma exception_handling_no_skip (self : DBTBaseOperator) (result : SubprocessResult) :
  skip_exit_code self ≠ Some (exit_code result) →
  exception_handling self result
  = if bool_decide (exit_code result ≠ 0%Z)
    then Raise (AirflowException (failure_message (exit_code result)))
    else Ret tt.
Proof.
  intros Hskip. unfold exception_handling.
  destruct (skip_exit_code self) as [code |]; [| done].
  rewrite bool_decide_eq_false_2; [done | congruence].
Qed.





(** C10. With [skip_exit_code=None], every non-zero exit code, 99 included,
    raises [AirflowException], exit code zero raises nothing, and no exit
    code raises [AirflowSkipException]. *)
Theorem skip_disabled (self : DBTBaseOperator) (result : SubprocessResult) :
  skip_exit_code self = None →
  (exit_code result ≠ 0%Z →
   exception_handling self result
   = Raise (AirflowException (failure_message (exit_code result))))
  ∧ (exit_code result = 0%Z → exception_handling self result = Ret tt)
  ∧ (∀ msg, exception_handling self result ≠ Raise (AirflowSkipException msg)).
Proof.
  intros Hnone.
  rewrite exception_handling_no_skip by (by rewrite Hnone).
  destruct (decide (exit_code result = 0%Z)) as [Hz | Hnz].
  - rewrite bool_decide_eq_false_2 by (by intros []). by split_and!.
  - rewrite bool_decide_eq_true_2 by done. by split_and!.
Qed.

Lemma skip_disabled_witness :
  exception_handling (example_with None None false None)
    {| exit_code := 99; output := "" |}
  = Raise (AirflowException
             "dbt command failed. The command returned a non-zero exit code 99.").
Proof.
  apply (skip_disabled (example_with None None false None)
           {| exit_code := 99; output := "" |}).
  - reflexivity.
  - vm_compute. discriminate.
Defined.

(** ** The environment *)






(** ** Credentials *)

Definition credential_variables : list string :=
  ["POSTGRES_HOST"; "POSTGRES_USER"; "POSTGRES_PASSWORD"; "POSTGRES_DATABASE";
   "POSTGRES_PORT"; "POSTGRES_SCHEMA"].

(** Every value the connection record holds, and the port as [str] makes it. *)
Definition connection_values (conn : Connection) : list pyval :=
  [PyStr (c_conn_id conn); PyStr (conn_type conn); of_opt_str (description conn);
   of_opt_str (host conn); of_opt_str (c_schema conn); of_opt_str (login conn);
   of_opt_str (password conn); of_opt_int (port conn);
   PyStr (py_str (of_opt_int (port conn))); of_opt_str (extra conn)].

(** C9, as the specification has it: each credential-derived variable holds
    a value taken from the connection record. *)
Definition taken_from_connection (conn : Connection) (environment : gmap string pyval)
    : Prop :=
  ∀ k, k ∈ credential_variables →
       ∃ v, environment !! k = Some v ∧ v ∈ connection_values conn.

(** C9, counterexample. An operator built with [schema="analytics"] hands
    POSTGRES_SCHEMA=analytics to the subprocess, a value the connection
    record (whose own schema, "shop", goes to POSTGRES_DATABASE) does not
    hold: POSTGRES_SCHEMA is the operator's [schema] argument. *)
Lemma schema_not_from_connection :
  let ext := example_ext {| exit_code := 0; output := "Done." |} in
  let self := example_with (Some "analytics") None false (Some 99%Z) in
  let w := example_world "postgres" in
  ∃ inv, invocations (execute ext self tt w).2 = [inv]
         ∧ connections w !! conn_id self = Some (example_connection "postgres")
         ∧ inv_env inv !! "POSTGRES_SCHEMA" = Some (PyStr "analytics")
         ∧ inv_env inv !! "POSTGRES_DATABASE" = Some (PyStr "shop")
         ∧ ¬ taken_from_connection (example_connection "postgres") (inv_env inv).
Proof.
  cbv zeta. eexists. split_and!; [vm_compute; reflexivity | | | |].
  - vm_compute. reflexivity.
  - vm_compute. reflexivity.
  - vm_compute. reflexivity.
  - intros H. destruct (H "POSTGRES_SCHEMA") as (v & Hv & Hin).
    + unfold credential_variables. do 5 apply list_elem_of_further.
      apply list_elem_of_here.
    + vm_compute in Hv. injection Hv as <-.
      unfold connection_values in Hin.
      repeat (apply elem_of_cons in Hin as [Hin | Hin];
              [vm_compute in Hin; discriminate Hin |]).
      by apply elem_of_nil in Hin.
Qed.

(** C9, amended. In the environment handed to the subprocess,
    POSTGRES_HOST, POSTGRES_USER, POSTGRES_PASSWORD, POSTGRES_DATABASE and
    POSTGRES_PORT hold the host, login, password, schema and ([str] of the)
    port of the resolved connection, and POSTGRES_SCHEMA holds the operator's
    own [schema] argument, whatever the process environment, the declared
    [env] map and the context variables hold under these names. *)
Theorem credential_variables_override (ext : Externals) (self : DBTBaseOperator)
    (context : Context ext) (w : World) (inv : Invocation) :
  invocations (execute ext self context w).2 = invocations w ++ [inv] →
  ∃ conn,
    connections w !! conn_id self = Some conn
    ∧ inv_env inv !! "POSTGRES_HOST" = Some (of_opt_str (host conn))
    ∧ inv_env inv !! "POSTGRES_USER" = Some (of_opt_str (login conn))
    ∧ inv_env inv !! "POSTGRES_PASSWORD" = Some (of_opt_str (password conn))
    ∧ inv_env inv !! "POSTGRES_DATABASE" = Some (of_opt_str (c_schema conn))
    ∧ inv_env inv !! "POSTGRES_PORT" = Some (PyStr (py_str (of_opt_int (port conn))))
    ∧ inv_env inv !! "POSTGRES_SCHEMA" = Some (of_opt_str (schema self)).
Proof.
  intros Hinv.
  destruct (execute_outcome_of_invocation ext self context w inv Hinv)
    as (conn & Hconn & _ & -> & _).
  exists conn. split; [exact Hconn |].
  unfold the_invocation, py_update; cbn [inv_env].
  split_and!; (apply lookup_union_Some_l; unfold profile_vars_of; by simplify_map_eq).
Qed.

Lemma credential_variables_override_witness :
  let ext := example_ext {| exit_code := 0; output := "Done." |} in
  let self :=
    example_with (Some "analytics") (Some {["POSTGRES_HOST" := PyStr "elsewhere"]})
      true (Some 99%Z) in
  let w := example_world "postgres" in
  let inv := the_invocation ext self tt w (example_connection "postgres") in
  invocations (execute ext self tt w).2 = [inv]
  ∧ inv_env inv !! "POSTGRES_HOST" = Some (PyStr "db.local").
Proof.
  intros ext self w inv.
  assert (Hrun : invocations (execute ext self tt w).2 = invocations w ++ [inv])
    by (vm_compute; reflexivity).
  split; [exact Hrun |].
  destruct (credential_variables_override ext self tt w inv Hrun)
    as (conn & Hconn & Hhost & _).
  assert (Hc : connections w !! conn_id self = Some (example_connection "postgres"))
    by (vm_compute; reflexivity).
  rewrite Hc in Hconn. injection Hconn as <-. exact Hhost.
Defined.

(** ** Unsupported connection types *)

Lemma map_profile_postgres (self : DBTBaseOperator) (w : World) (conn : Connection) :
  connections w !! conn_id self = Some conn →
  conn_type conn = "postgres" →
  map_profile self w = (Ret ("postgres_profile", profile_vars_of self conn), w).
Proof.
  intros Hconn Htype. rewrite map_profile_run, Hconn.
  by destruct (decide (conn_type conn = "postgres")).
Qed.

Lemma map_profile_unsupported (self : DBTBaseOperator) (w : World) (conn : Connection) :
  connections w !! conn_id self = Some conn →
  conn_type conn ≠ "postgres" →
  map_profile self w = (Raise no_type_attribute, w).
Proof.
  intros Hconn Htype. rewrite map_profile_run, Hconn.
  by destruct (decide (conn_type conn = "postgres")).
Qed.

(** C7, at a connection of type "mysql". The message for the error stream
    reads [conn.type], but the connection's type tag is [conn.conn_type] and
    [Connection] has no attribute [type]: [map_profile] raises
    [AttributeError] while it builds the message, nothing has been written to
    the error stream, and [sys.exit(1)] is not reached. *)
Theorem unsupported_connection_raises_AttributeError :
  map_profile example_operator (example_world "mysql")
  = (Raise (AttributeError "'Connection' object has no attribute 'type'"),
     example_world "mysql")
  ∧ stderr (map_profile example_operator (example_world "mysql")).2 = []
  ∧ (map_profile example_operator (example_world "mysql")).1 ≠ Raise (SystemExit 1)
  ∧ map_profile example_operator (example_world "postgres")
    = (Ret ("postgres_profile",
            profile_vars_of example_operator (example_connection "postgres")),
       example_world "postgres").
Proof.
  assert (H : map_profile example_operator (example_world "mysql")
              = (Raise no_type_attribute, example_world "mysql")).
  { apply (map_profile_unsupported _ _ (example_connection "mysql")); [reflexivity |].
    vm_compute. discriminate. }
  split_and!.
  - exact H.
  - by rewrite H.
  - rewrite H. discriminate.
  - by apply map_profile_postgres.
Qed.

(** ** The default profile file *)

Ltac fs_lookup :=
  repeat first
    [ rewrite lookup_insert_eq
    | rewrite lookup_insert_ne by discriminate ].

Lemma ancestors_directory_path : ancestors directory_path = ["/home/astro"; "/home"].
Proof. reflexivity. Qed.

Lemma parent_file_path : hd_error (ancestors file_path) = Some directory_path.
Proof. reflexivity. Qed.

(** [os.makedirs] on the profile directory, when it is not there yet. *)
Definition makedirs_directory_path (w : World) : outcome unit * World :=
  match fs w !! "/home/astro" with
  | Some Dir => (Ret tt, set_fs (<[directory_path := Dir]> (fs w)) w)
  | Some (File _) => (Raise (NotADirectoryError directory_path), w)
  | None =>
      match fs w !! "/home" with
      | Some Dir =>
          (Ret tt,
           set_fs (<[directory_path := Dir]> (<["/home/astro" := Dir]> (fs w))) w)
      | Some (File _) => (Raise (NotADirectoryError "/home/astro"), w)
      | None =>
          (Ret tt,
           set_fs (<[directory_path := Dir]>
                     (<["/home/astro" := Dir]> (<["/home" := Dir]> (fs w)))) w)
      end
  end.

Lemma os_makedirs_directory_path (w : World) :
  fs w !! directory_path = None →
  os_makedirs directory_path w = makedirs_directory_path w.
Proof.
  intros Hd. unfold os_makedirs, makedirs_directory_path.
  rewrite ancestors_directory_path.
  unfold makedirs_chain, bind, os_path_exists, os_mkdir, except_FileExistsError_pass, ret.
  cbn [hd_error].
  destruct (fs w !! "/home/astro") as [[c |] |] eqn:Ha.
  - by rewrite Hd, Ha.
  - by rewrite Hd, Ha.
  - destruct (fs w !! "/home") as [[c |] |] eqn:Hh.
    + by rewrite Ha, Hh.
    + rewrite Ha, Hh. cbn. fs_lookup. rewrite Hd. by fs_lookup.
    + rewrite Hh. cbn. fs_lookup. rewrite Ha. fs_lookup. cbn. fs_lookup.
      rewrite Hd. by fs_lookup.
Qed.

Section DefaultProfile.
Context (ext : Externals).

Lemma create_default_profiles_run (w : World) :
  create_default_profiles ext w =
  match
    match fs w !! directory_path with
    | Some _ => (Ret tt, w)
    | None => makedirs_directory_path w
    end
  with
  | (Raise e, w1) => (Raise e, w1)
  | (Ret _, w1) =>
      match fs w1 !! file_path with
      | Some _ => (Ret tt, add_stdout "profiles.yml found - skipping" w1)
      | None =>
          match fs w1 !! directory_path with
          | Some Dir =>
              (Ret tt,
               add_stdout "done"
                 (set_fs (<[file_path := File (yaml_dump ext default_profile)]> (fs w1))
                    (add_stdout "profiles.yml not found - initializing." w1)))
          | Some (File _) =>
              (Raise (NotADirectoryError file_path),
               add_stdout "profiles.yml not found - initializing." w1)
          | None =>
              (Raise (FileNotFoundError file_path),
               add_stdout "profiles.yml not found - initializing." w1)
          end
      end
  end.
Proof.
  unfold create_default_profiles. unfold bind at 1. unfold os_path_exists at 1.
  unfold bind at 1.
  assert (Hrest : ∀ w1 : World,
    (let! file_exists := os_path_exists file_path in
     if negb file_exists
     then print "profiles.yml not found - initializing." >>
          open_w_write file_path (yaml_dump ext default_profile) >> print "done"
     else print "profiles.yml found - skipping") w1
    = match fs w1 !! file_path with
      | Some _ => (Ret tt, add_stdout "profiles.yml found - skipping" w1)
      | None =>
          match fs w1 !! directory_path with
          | Some Dir =>
              (Ret tt,
               add_stdout "done"
                 (set_fs (<[file_path := File (yaml_dump ext default_profile)]> (fs w1))
                    (add_stdout "profiles.yml not found - initializing." w1)))
          | Some (File _) =>
              (Raise (NotADirectoryError file_path),
               add_stdout "profiles.yml not found - initializing." w1)
          | None =>
              (Raise (FileNotFoundError file_path),
               add_stdout "profiles.yml not found - initializing." w1)
          end
      end).
  { intros w1. unfold bind, os_path_exists, print, open_w_write.
    rewrite parent_file_path. cbn [fs add_stdout].
    destruct (fs w1 !! file_path) as [n |] eqn:Hf; cbn; [done |].
    rewrite Hf. by destruct (fs w1 !! directory_path) as [[c |] |]. }
  destruct (fs w !! directory_path) as [n |] eqn:Hd; cbn [negb].
  - unfold ret. apply Hrest.
  - rewrite os_makedirs_directory_path by exact Hd.
    destruct (makedirs_directory_path w) as [[[] | e] w1]; [apply Hrest | done].
Qed.





End DefaultProfile.



End OperatorFacts.

(** * Properties of the converter *)

Module ConverterFacts.
Import Converter.

Section Validation.
Context (ext : Externals).

(** Some item is found under [field] in both lists. *)
Definition overlap_in (select exclude : list string) (field : string) : Prop :=
  ∃ item, item ∈ retrieve_by_label ext select field
          ∧ item ∈ retrieve_by_label ext exclude field.

Definition selectors_overlap (select exclude : list string) : Prop :=
  overlap_in select exclude "tags" ∨ overlap_in select exclude "paths".

Lemma validate_field_overlap (select exclude : list string) (field : string) :
  overlap_in select exclude field →
  ∃ msg, validate_field ext select exclude field = Raise (AirflowException msg).
Proof.
  intros (item & Hs & He). unfold validate_field.
  destruct (decide (_ ≠ _)) as [_ | Hempty]; [by eexists |].
  exfalso. apply Hempty. intros Heq.
  assert (Hin : item ∈ (list_to_set (retrieve_by_label ext select field) : gset string)
                       ∩ list_to_set (retrieve_by_label ext exclude field)).
  { apply elem_of_intersection. by rewrite !elem_of_list_to_set. }
  rewrite Heq in Hin. by apply not_elem_of_empty in Hin.
Qed.

Lemma validate_field_disjoint (select exclude : list string) (field : string) :
  ¬ overlap_in select exclude field →
  validate_field ext select exclude field = Ret tt.
Proof.
  intros Hno. unfold validate_field.
  destruct (decide (_ ≠ _)) as [Hne | _]; [| done].
  exfalso. apply set_choose_L in Hne as [item Hin].
  apply elem_of_intersection in Hin as [Hs He].
  rewrite elem_of_list_to_set in Hs. rewrite elem_of_list_to_set in He.
  apply Hno. by exists item.
Qed.

Lemma overlap_in_dec (select exclude : list string) (field : string) :
  overlap_in select exclude field ∨ ¬ overlap_in select exclude field.
Proof.
  destruct (validate_field ext select exclude field) as [[] | e] eqn:Hv.
  - right. intros Ho. apply validate_field_overlap in Ho as [msg Hmsg]. congruence.
  - left. destruct (decide (list_to_set (retrieve_by_label ext select field)
                              ∩ list_to_set (retrieve_by_label ext exclude field)
                            ≠ (∅ : gset string))) as [Hne | Heq].
    + apply set_choose_L in Hne as [item Hin].
      apply elem_of_intersection in Hin as [Hs He].
      rewrite elem_of_list_to_set in Hs. rewrite elem_of_list_to_set in He.
      by exists item.
    + unfold validate_field in Hv. by rewrite decide_False in Hv.
Qed.

Lemma validate_arguments_overlap (select exclude : list string)
    (task_args : gmap string (Any ext)) :
  selectors_overlap select exclude →
  ∃ msg, validate_arguments ext select exclude task_args = Raise (AirflowException msg).
Proof.
  intros Hover. unfold validate_arguments, validate_fields.
  destruct (overlap_in_dec select exclude "tags") as [Htags | Hnotags].
  - apply validate_field_overlap in Htags as [msg ->]. by eexists.
  - rewrite (validate_field_disjoint _ _ _ Hnotags).
    destruct Hover as [Htags | Hpaths]; [done |].
    apply validate_field_overlap in Hpaths as [msg ->]. by eexists.
Qed.

Lemma validate_arguments_pass (select exclude : list string)
    (task_args : gmap string (Any ext)) :
  ¬ selectors_overlap select exclude →
  task_args !! "schema" = None →
  validate_arguments ext select exclude task_args = Ret tt.
Proof.
  intros Hno Hschema. unfold validate_arguments, validate_fields.
  rewrite !validate_field_disjoint by (intros Ho; apply Hno; first [by left | by right]).
  rewrite decide_False; [done |]. rewrite Hschema. by intros [? ?].
Qed.

Lemma init_raises_before_build (built : BuildCall ext → outcome unit)
    (a : InitArgs ext) (calls : list (BuildCall ext)) :
  selectors_overlap (or_empty (select ext a)) (or_empty (exclude ext a)) →
  ∃ e, init ext built a calls = (Raise e, calls).
Proof.
  intros Hover. unfold init, bind, lift, raise, ret.
  destruct (_ && _); [by eexists |].
  destruct (convert_value_to_enum _ _ _); [| by eexists].
  destruct (convert_value_to_enum _ _ _); [| by eexists].
  destruct (convert_value_to_enum _ _ _); [| by eexists].
  destruct (new_DbtProject _ _ _ _ _ _ _) as [project |]; [| by eexists].
  destruct (new_DbtGraph _ _ _ _ _); [| by eexists].
  destruct (DbtGraph_load _ _ _ _); [| by eexists].
  destruct (validate_arguments_overlap _ _ (make_task_args ext a project) Hover)
    as [msg ->].
  by eexists.
Qed.

End Validation.

(** ** A small project to run the converter on *)

Fixpoint strip_prefix (pre s : string) : option string :=
  match pre with
  | EmptyString => Some s
  | String a pre' =>
      match s with
      | EmptyString => None
      | String b s' => if decide (a = b) then strip_prefix pre' s' else None
      end
  end.

(** Modelled from the spec: [retrieve_by_label] of [cosmos.dbt.selector],
    which is not among the sources. The selector mini-language has strings of
    the form [tag:<value>] and [path:<value>]; the items under the label
    "tags" are the values of the [tag:] statements, those under "paths" the
    values of the [path:] statements. It serves the examples only: the
    properties of the validation hold for any [retrieve_by_label]. *)
Definition retrieve_by_label_model (statement_list : list string) (label : string)
    : list string :=
  if decide (label = "tags") then omap (strip_prefix "tag:") statement_list
  else if decide (label = "paths") then omap (strip_prefix "path:") statement_list
  else [].

Definition member_of (members : list string) (value : string) : option string :=
  if decide (value ∈ members) then Some value else None.

Definition example_ext : Externals :=
  {| Any := string; ProfileConfig := unit; DAG := unit; TaskGroup := unit;
     Callable := unit; TestBehavior := string; ExecutionMode := string;
     LoadMode := string; DbtProject := string * string; DbtGraph := list string;
     Nodes := list string;
     TestBehavior_of := member_of ["none"; "after_each"; "after_all"];
     ExecutionMode_of := member_of ["local"; "docker"; "kubernetes"; "virtualenv"];
     LoadMode_of := member_of ["automatic"; "custom"; "dbt_ls"; "dbt_manifest"];
     ExecutionMode_eq_str := λ _ _, false;
     retrieve_by_label := retrieve_by_label_model;
     format_set := λ items, "{" +:+ String.concat ", " (elements items) +:+ "}";
     new_DbtProject := λ name root _ _ _ _, Ret (name, root +:+ "/" +:+ name);
     DbtProject_dir := snd;
     DbtProject_name := fst;
     get_system_dbt := "dbt";
     new_DbtGraph := λ _ _ select _, Ret select;
     DbtGraph_load := λ graph _ _, Ret graph;
     DbtGraph_nodes := id;
     DAG_bool := λ _, true;
     TaskGroup_bool := λ _, true;
     TaskGroup_dag := λ _, Some tt;
     any_of_profile_config := λ _, "ProfileConfig" |}.

(** [DbtToAirflowConverter("jaffle_shop", profile_config=..., dag=...,
    select=..., exclude=..., execution_mode="local", ...)] *)
Definition example_args (selected excluded : option (list string))
    (operator_args : gmap string string) : InitArgs example_ext :=
  Build_InitArgs example_ext
    "jaffle_shop" (* dbt_project_name *)
    (Some tt) (* profile_config *)
    (Some tt) (* dag *)
    None (* task_group *)
    ∅ (* dbt_args *)
    operator_args
    true (* emit_datasets *)
    "/usr/local/airflow/dags/dbt" (* dbt_root_path *)
    None None None (* dbt_models_dir, dbt_seeds_dir, dbt_snapshots_dir *)
    (inl "after_each") (* test_behavior *)
    selected excluded
    (inl "local") (* execution_mode *)
    (inl "automatic") (* load_mode *)
    None (* manifest_path *)
    None (* on_warning_callback *).

Example example_init_builds :
  let run :=
    init example_ext (λ _, Ret tt)
      (example_args (Some ["tag:nightly"]) (Some ["tag:slow"; "path:models/old"]) ∅) [] in
  run.1 = Ret tt ∧ b_nodes example_ext <$> run.2 = [["tag:nightly"]].
Proof. split; vm_compute; reflexivity. Qed.

Example example_init_schema :
  init example_ext (λ _, Ret tt)
    (example_args None None {["schema" := "public"]}) []
  = (Raise (AirflowException
              "The `schema` argument is no longer supported. Please use the `profile_args` instead."),
     []).
Proof. vm_compute. reflexivity. Qed.

(** ** Validation of the selectors *)

(** C3. For every pair of select and exclude lists: if some item is found
    under the same label, tags or paths, in both, [validate_arguments] raises
    an [AirflowException], and [DbtToAirflowConverter.__init__] raises without
    a single call to [build_airflow_graph], so before any task is created; if
    there is no such item and the task arguments have no [schema] key,
    [validate_arguments] raises nothing. *)
Theorem overlapping_selectors_rejected (ext : Externals) (selected excluded : list string) :
  (selectors_overlap ext selected excluded →
   (∀ task_args,
      ∃ msg, validate_arguments ext selected excluded task_args
             = Raise (AirflowException msg))
   ∧ (∀ built a calls,
        or_empty (select ext a) = selected → or_empty (exclude ext a) = excluded →
        ∃ e, init ext built a calls = (Raise e, calls)))
  ∧ (¬ selectors_overlap ext selected excluded →
     ∀ task_args, task_args !! "schema" = None →
                  validate_arguments ext selected excluded task_args = Ret tt).
Proof.
  split.
  - intros Hover. split.
    + intros task_args. by apply validate_arguments_overlap.
    + intros built a calls <- <-. by apply init_raises_before_build.
  - intros Hno task_args Hschema. by apply validate_arguments_pass.
Qed.

Lemma overlapping_selectors_rejected_witness :
  (∃ msg, validate_arguments example_ext ["tag:nightly"; "path:models/a"]
            ["path:models/b"; "tag:nightly"] ∅
          = Raise (AirflowException msg))
  ∧ (∃ e, init example_ext (λ _, Ret tt)
            (example_args (Some ["tag:nightly"; "path:models/a"])
               (Some ["path:models/b"; "tag:nightly"]) ∅) []
          = (Raise e, []))
  ∧ validate_arguments example_ext ["tag:nightly"] ["tag:slow"; "path:models/old"] ∅
    = Ret tt.
Proof.
  assert (Hover : selectors_overlap example_ext ["tag:nightly"; "path:models/a"]
                    ["path:models/b"; "tag:nightly"]).
  { left. exists "nightly". split; vm_compute.
    - apply list_elem_of_here.
    - apply list_elem_of_here. }
  split_and!.
  - by apply (overlapping_selectors_rejected example_ext
                ["tag:nightly"; "path:models/a"] ["path:models/b"; "tag:nightly"]).
  - apply (overlapping_selectors_rejected example_ext
             ["tag:nightly"; "path:models/a"] ["path:models/b"; "tag:nightly"]);
      [exact Hover | reflexivity | reflexivity].
  - apply (overlapping_selectors_rejected example_ext
             ["tag:nightly"] ["tag:slow"; "path:models/old"]); [| reflexivity].
    intros [(item & Hs & He) | (item & Hs & He)]; vm_compute in Hs, He.
    + apply list_elem_of_singleton in Hs as ->.
      apply list_elem_of_singleton in He. discriminate He.
    + by apply elem_of_nil in Hs.
Defined.

End ConverterFacts.

(** * Further properties of the operator *)

Module OperatorExtras.
Import Operators OperatorFacts.

(** ** Flag names *)

(** [c in s] for a character. *)
Fixpoint occurs (c : ascii) (s : string) : bool :=
  match s with
  | EmptyString => false
  | String c' s' => bool_decide (c' = c) || occurs c s'
  end.

Lemma replace_length (a b : ascii) (s : string) :
  String.length (replace a b s) = String.length s.
Proof. induction s as [| c s IH]; cbn; congruence. Qed.

Lemma replace_removes (a b : ascii) (s : string) :
  a ≠ b → occurs a (replace a b s) = false.
Proof.
  intros Hab. induction s as [| c s IH]; [done |]. cbn. rewrite IH.
  destruct (decide (c = a)) as [-> | Hc]; rewrite orb_false_r;
    apply bool_decide_eq_false_2; congruence.
Qed.

Lemma replace_absent (a b : ascii) (s : string) :
  occurs a s = false → replace a b s = s.
Proof.
  induction s as [| c s IH]; [done |]. cbn. intros [Hc Hs]%orb_false_iff.
  apply bool_decide_eq_false_1 in Hc. rewrite decide_False by exact Hc.
  by rewrite IH.
Qed.

(** X1. The flag made from a field name has no underscore left, is two
    characters longer than the name, and is the name behind two hyphens when
    the name has no underscore. *)
Theorem dbt_name_hyphens (name : string) :
  occurs "_" (dbt_name name) = false
  ∧ String.length (dbt_name name) = 2 + String.length name
  ∧ (occurs "_" name = false → dbt_name name = "--" +:+ name).
Proof.
  unfold dbt_name. split_and!.
  - cbn. by apply replace_removes.
  - change (S (S (String.length (replace "_" "-" name))) = 2 + String.length name).
    by rewrite replace_length.
  - intros Hno. by rewrite replace_absent.
Qed.

Lemma dbt_name_hyphens_witness : dbt_name "quiet" = "--quiet".
Proof. apply (dbt_name_hyphens "quiet"). reflexivity. Defined.

(** ** The dbt path and the project directory *)



(** ** The credential variables *)

(** X3. For a postgres connection [map_profile] returns the profile name
    "postgres_profile" and exactly the six POSTGRES_ variables, without a
    change to the world; a connection without a port gives the string "None"
    for POSTGRES_PORT, while a missing host, login, password or schema, and an
    operator without [schema], give Python's [None]. *)
Theorem map_profile_variables (self : DBTBaseOperator) (w : World) (conn : Connection) :
  connections w !! conn_id self = Some conn →
  conn_type conn = "postgres" →
  ∃ profile_vars,
    map_profile self w = (Ret ("postgres_profile", profile_vars), w)
    ∧ dom profile_vars = list_to_set credential_variables
    ∧ (port conn = None → profile_vars !! "POSTGRES_PORT" = Some (PyStr "None"))
    ∧ (host conn = None → profile_vars !! "POSTGRES_HOST" = Some PyNone)
    ∧ (login conn = None → profile_vars !! "POSTGRES_USER" = Some PyNone)
    ∧ (password conn = None → profile_vars !! "POSTGRES_PASSWORD" = Some PyNone)
    ∧ (c_schema conn = None → profile_vars !! "POSTGRES_DATABASE" = Some PyNone)
    ∧ (schema self = None → profile_vars !! "POSTGRES_SCHEMA" = Some PyNone).
Proof.
  intros Hconn Htype. exists (profile_vars_of self conn).
  split; [by apply map_profile_postgres |].
  unfold profile_vars_of. split.
  { rewrite !dom_insert_L, dom_empty_L. unfold credential_variables.
    cbn [list_to_set foldr]. apply set_eq. intros k.
    rewrite !elem_of_union, !elem_of_singleton, elem_of_empty. tauto. }
  split_and!; intros ->; by simplify_map_eq.
Qed.

Lemma map_profile_variables_witness :
  ∃ profile_vars,
    map_profile example_operator (example_world "postgres")
    = (Ret ("postgres_profile", profile_vars), example_world "postgres")
    ∧ profile_vars !! "POSTGRES_SCHEMA" = Some PyNone.
Proof.
  destruct (map_profile_variables example_operator (example_world "postgres")
              (example_connection "postgres"))
    as (profile_vars & Hrun & _ & _ & _ & _ & _ & _ & Hschema);
    [reflexivity | reflexivity |].
  exists profile_vars. split; [exact Hrun | apply Hschema; reflexivity].
Defined.

(** ** What [execute] does to the world *)

Section Execute.
Context (ext : Externals).




End Execute.

(** ** What [create_default_profiles] does to the world *)

Section Profiles.
Context (ext : Externals).

Ltac by_cases w :=
  rewrite (create_default_profiles_run ext w);
  unfold makedirs_directory_path, directory_path, file_path in *;
  destruct (fs w !! "/home/astro/.dbt") as [[cd |] |] eqn:HD;
  [ | | destruct (fs w !! "/home/astro") as [[ca |] |] eqn:HA;
        [ | | destruct (fs w !! "/home") as [[ch |] |] eqn:HH ] ];
  destruct (fs w !! "/home/astro/.dbt/profiles.yml") as [[cf |] |] eqn:HF;
  repeat (cbn [fs stdout set_fs add_stdout fst snd] in *;
          repeat first [ rewrite lookup_insert_eq
                       | rewrite lookup_insert_ne by discriminate ];
          repeat match goal with
                 | H : fs ?w !! ?k = _ |- context [fs ?w !! ?k] => rewrite H
                 end).

(** X6. [create_default_profiles] only adds to the filesystem: every entry
    that was there is there unchanged afterwards, whether the call returns or
    raises, and no path other than /home, /home/astro, /home/astro/.dbt and
    the profile file is touched. *)
Theorem default_profile_only_adds (w : World) :
  fs w ⊆ fs (create_default_profiles ext w).2
  ∧ ∀ p, p ∉ ["/home"; "/home/astro"; directory_path; file_path] →
         fs (create_default_profiles ext w).2 !! p = fs w !! p.
Proof.
  split.
  - apply map_subseteq_spec. intros p n Hp. revert Hp.
    by_cases w; intros Hp;
      repeat (rewrite lookup_insert_ne by (intros <-; congruence)); exact Hp.
  - intros p Hp. rewrite !not_elem_of_cons in Hp.
    destruct Hp as (H1 & H2 & H3 & H4 & _). revert H1 H2 H3 H4.
    by_cases w; intros H1 H2 H3 H4;
      repeat (rewrite lookup_insert_ne by done); reflexivity.
Qed.

(** X7. When [create_default_profiles] returns it has printed one line,
    "profiles.yml found - skipping", if there was an entry at the profile
    path, and the two lines "profiles.yml not found - initializing." and
    "done" if there was none. *)
Theorem default_profile_messages (w : World) :
  (create_default_profiles ext w).1 = Ret tt →
  stdout (create_default_profiles ext w).2
  = stdout w ++ match fs w !! file_path with
                | Some _ => ["profiles.yml found - skipping"]
                | None => ["profiles.yml not found - initializing."; "done"]
                end.
Proof.
  by_cases w; intros Hret; try discriminate Hret;
    rewrite <- ?app_assoc; reflexivity.
Qed.

End Profiles.

Lemma default_profile_messages_witness :
  stdout (create_default_profiles (example_ext {| exit_code := 0; output := "Done." |})
            (example_world "postgres")).2
  = ["profiles.yml not found - initializing."; "done"].
Proof.
  apply (default_profile_messages (example_ext {| exit_code := 0; output := "Done." |})
           (example_world "postgres")).
  vm_compute. reflexivity.
Defined.

(** ** Running the command *)


(** X23. [exception_handling] returns exactly when the exit code is 0 and
    the skip exit code is not 0. *)
Theorem exception_handling_returns_iff (self : DBTBaseOperator)
    (result : SubprocessResult) :
  exception_handling self result = Ret tt
  ↔ exit_code result = 0%Z ∧ skip_exit_code self ≠ Some 0%Z.
Proof.
  split.
  - intros Hret.
    destruct (decide (skip_exit_code self = Some (exit_code result))) as [Hs | Hs].
    { rewrite (exception_handling_skip _ _ Hs) in Hret. discriminate Hret. }
    rewrite (exception_handling_no_skip _ _ Hs) in Hret.
    destruct (decide (exit_code result = 0%Z)) as [Hz | Hz].
    + split; [exact Hz |]. by rewrite <- Hz.
    + rewrite bool_decide_eq_true_2 in Hret by exact Hz. discriminate Hret.
  - intros [Hz Hs].
    rewrite exception_handling_no_skip by (by rewrite Hz).
    rewrite bool_decide_eq_false_2; [done |]. by intros [].
Qed.

End OperatorExtras.

(** * [get_env] with dictionaries as objects

    [get_env] returns a dictionary object and updates it in place. Here a
    dictionary is named by a reference into a heap of dictionaries, so that
    [self.env] and the dictionary returned can be the same object. *)

Module EnvObjects.
Import Operators.

(** [self_env] is the reference held by [self.env], if it is not [None];
    [os.environ.copy()] allocates a new dictionary; [d.update(other)] changes
    the dictionary [d] names. The reference of [env] is returned with the
    heap. *)
Definition get_env_ref (self_env : option nat) (append_env : bool)
    (process_env airflow_context_vars : gmap string string)
    (heap : gmap nat (gmap string pyval)) : nat * gmap nat (gmap string pyval) :=
  let system_env := fresh (dom heap) in
  let heap1 := <[system_env := PyStr <$> process_env]> heap in
  let '(env1, heap2) :=
    match self_env with
    | None => (system_env, heap1)
    | Some env0 =>
        if append_env
        then (system_env,
              alter (λ d, py_update d (default ∅ (heap1 !! env0))) system_env heap1)
        else (env0, heap1)
    end in
  (env1, alter (λ d, py_update d (PyStr <$> airflow_context_vars)) env1 heap2).

End EnvObjects.

Module EnvObjectsFacts.
Import Operators EnvObjects.

Lemma fresh_ref_unused (heap : gmap nat (gmap string pyval)) :
  heap !! fresh (dom heap) = None.
Proof. apply not_elem_of_dom. apply is_fresh. Qed.

Lemma used_ref_not_fresh (heap : gmap nat (gmap string pyval)) (r : nat)
    (d : gmap string pyval) :
  heap !! r = Some d → fresh (dom heap) ≠ r.
Proof. intros Hr Heq. rewrite <- Heq, fresh_ref_unused in Hr. discriminate Hr. Qed.

(** The heap holds the value of [self.env]. *)
Definition holds_env (heap : gmap nat (gmap string pyval)) (self_env : option nat)
    (value : option (gmap string pyval)) : Prop :=
  match self_env, value with
  | Some r, Some d => heap !! r = Some d
  | None, None => True
  | _, _ => False
  end.

(** X8. The dictionary object [get_env] returns holds the environment
    computed by value: the process environment, the declared map and the
    context variables laid over each other as [get_env] of the operator
    model has them. *)
Theorem get_env_ref_value (ext : Externals) (self : DBTBaseOperator)
    (context : Context ext) (w : World) (self_env : option nat)
    (heap : gmap nat (gmap string pyval)) :
  holds_env heap self_env (env self) →
  ∃ d,
    (get_env ext self context w).1 = Ret d
    ∧ (get_env_ref self_env (append_env self) (environ w)
         (context_to_airflow_vars ext context) heap).2
      !! (get_env_ref self_env (append_env self) (environ w)
            (context_to_airflow_vars ext context) heap).1
      = Some d.
Proof.
  intros Hholds. eexists. split; [reflexivity |].
  unfold get_env_ref, holds_env in *.
  destruct self_env as [r |], (env self) as [d |]; try done.
  - pose proof (used_ref_not_fresh _ _ _ Hholds) as Hne.
    destruct (append_env self); cbn.
    + rewrite lookup_alter_eq, lookup_alter_eq, lookup_insert_eq.
      by rewrite lookup_insert_ne, Hholds by exact Hne.
    + by rewrite lookup_alter_eq, lookup_insert_ne, Hholds by exact Hne.
  - cbn. by rewrite lookup_alter_eq, lookup_insert_eq.
Qed.

Lemma get_env_ref_in_place (r : nat) (d : gmap string pyval)
    (process_env airflow_context_vars : gmap string string)
    (heap : gmap nat (gmap string pyval)) :
  heap !! r = Some d →
  (get_env_ref (Some r) false process_env airflow_context_vars heap).1 = r
  ∧ (get_env_ref (Some r) false process_env airflow_context_vars heap).2 !! r
    = Some ((PyStr <$> airflow_context_vars) ∪ d).
Proof.
  intros Hr. unfold get_env_ref. cbn.
  pose proof (used_ref_not_fresh _ _ _ Hr) as Hne. split; [done |].
  by rewrite lookup_alter_eq, lookup_insert_ne, Hr by exact Hne.
Qed.

(** X9. With a declared [env] and [append_env] false, the dictionary
    returned is [self.env] itself, which from then on holds the context
    variables as well; every other dictionary is as it was. With no declared
    [env], or with [append_env] true, the dictionary returned is a new one and
    every dictionary there was, [self.env] included, is as it was. *)
Theorem get_env_ref_aliasing (self_env : option nat) (append_env : bool)
    (process_env airflow_context_vars : gmap string string)
    (heap : gmap nat (gmap string pyval)) :
  (∀ r d, self_env = Some r → append_env = false → heap !! r = Some d →
     (get_env_ref self_env append_env process_env airflow_context_vars heap).1 = r
     ∧ (get_env_ref self_env append_env process_env airflow_context_vars heap).2 !! r
       = Some ((PyStr <$> airflow_context_vars) ∪ d)
     ∧ ∀ r' d', r' ≠ r → heap !! r' = Some d' →
         (get_env_ref self_env append_env process_env airflow_context_vars heap).2 !! r'
         = Some d')
  ∧ (self_env = None ∨ append_env = true →
     heap !! (get_env_ref self_env append_env process_env airflow_context_vars heap).1
     = None
     ∧ ∀ r' d', heap !! r' = Some d' →
         (get_env_ref self_env append_env process_env airflow_context_vars heap).2 !! r'
         = Some d').
Proof.
  split.
  - intros r d -> -> Hr.
    destruct (get_env_ref_in_place r d process_env airflow_context_vars heap Hr)
      as [Href Hval].
    split_and!; [exact Href | exact Hval |].
    intros r' d' Hr' Hd'. unfold get_env_ref. cbn.
    rewrite lookup_alter_ne by done.
    by rewrite lookup_insert_ne by (by apply (used_ref_not_fresh _ _ d')).
  - intros Hcase.
    destruct self_env as [r |]; [destruct Hcase as [[=] | ->] |];
      unfold get_env_ref; cbn.
    all: split; [apply fresh_ref_unused |].
    all: intros r' d' Hd'; pose proof (used_ref_not_fresh _ _ _ Hd') as Hne.
    + by rewrite !lookup_alter_ne, lookup_insert_ne by exact Hne.
    + by rewrite lookup_alter_ne, lookup_insert_ne by exact Hne.
Qed.

(** X10. After two calls of [get_env] on an operator with a declared [env]
    and [append_env] false, [self.env] still holds every context variable of
    the first call that the second call did not set again. *)
Theorem context_variables_stay (r : nat) (d : gmap string pyval)
    (process_env1 process_env2 context_vars1 context_vars2 : gmap string string)
    (heap : gmap nat (gmap string pyval)) :
  heap !! r = Some d →
  ∃ m,
    (get_env_ref (Some r) false process_env2 context_vars2
       (get_env_ref (Some r) false process_env1 context_vars1 heap).2).2 !! r = Some m
    ∧ ∀ k v, context_vars1 !! k = Some v → context_vars2 !! k = None →
             m !! k = Some (PyStr v).
Proof.
  intros Hr.
  destruct (get_env_ref_in_place r d process_env1 context_vars1 heap Hr) as [_ H1].
  destruct (get_env_ref_in_place r _ process_env2 context_vars2 _ H1) as [_ H2].
  eexists. split; [exact H2 |].
  intros k v Hk1 Hk2.
  rewrite lookup_union_r by (by rewrite lookup_fmap, Hk2).
  apply lookup_union_Some_l. by rewrite lookup_fmap, Hk1.
Qed.

Definition example_heap : gmap nat (gmap string pyval) :=
  {[ 0 := {["DBT_TARGET" := PyStr "dev"]} ]}.

Lemma get_env_ref_value_witness :
  ∃ d,
    (get_env (OperatorFacts.example_ext {| exit_code := 0; output := "Done." |})
       (OperatorFacts.example_with None (Some {["DBT_TARGET" := PyStr "dev"]}) false
          (Some 99%Z))
       tt (OperatorFacts.example_world "postgres")).1 = Ret d
    ∧ (get_env_ref (Some 0) false {["HOME" := "/root"]}
         {["AIRFLOW_CTX_DAG_ID" := "jaffle_shop"]} example_heap).2 !! 0 = Some d.
Proof.
  destruct (get_env_ref_value
              (OperatorFacts.example_ext {| exit_code := 0; output := "Done." |})
              (OperatorFacts.example_with None (Some {["DBT_TARGET" := PyStr "dev"]})
                 false (Some 99%Z))
              tt (OperatorFacts.example_world "postgres") (Some 0) example_heap)
    as (d & Hd & Hheap); [vm_compute; reflexivity |].
  exists d. split; [exact Hd |].
  destruct (get_env_ref_in_place 0 {["DBT_TARGET" := PyStr "dev"]} {["HOME" := "/root"]}
              {["AIRFLOW_CTX_DAG_ID" := "jaffle_shop"]} example_heap)
    as [Href _]; [vm_compute; reflexivity |].
  cbn [append_env OperatorFacts.example_with] in Hheap.
  change (environ (OperatorFacts.example_world "postgres"))
    with ({["HOME" := "/root"]} : gmap string string) in Hheap.
  change (context_to_airflow_vars
            (OperatorFacts.example_ext {| exit_code := 0; output := "Done." |}) tt)
    with ({["AIRFLOW_CTX_DAG_ID" := "jaffle_shop"]} : gmap string string) in Hheap.
  by rewrite Href in Hheap.
Defined.

Lemma get_env_ref_aliasing_witness :
  (get_env_ref (Some 0) false {["HOME" := "/root"]}
     {["AIRFLOW_CTX_DAG_ID" := "jaffle_shop"]} example_heap).1 = 0
  ∧ (get_env_ref (Some 0) false {["HOME" := "/root"]}
       {["AIRFLOW_CTX_DAG_ID" := "jaffle_shop"]} example_heap).2 !! 0
    = Some ((PyStr <$> {["AIRFLOW_CTX_DAG_ID" := "jaffle_shop"]})
            ∪ {["DBT_TARGET" := PyStr "dev"]}).
Proof.
  destruct (get_env_ref_aliasing (Some 0) false {["HOME" := "/root"]}
              {["AIRFLOW_CTX_DAG_ID" := "jaffle_shop"]} example_heap) as [Hin _].
  destruct (Hin 0 {["DBT_TARGET" := PyStr "dev"]}) as (Href & Hval & _);
    [reflexivity | reflexivity | vm_compute; reflexivity |].
  by split.
Defined.

Lemma context_variables_stay_witness :
  ∃ m,
    (get_env_ref (Some 0) false ∅ {["AIRFLOW_CTX_TRY_NUMBER" := "2"]}
       (get_env_ref (Some 0) false ∅ {["AIRFLOW_CTX_DAG_ID" := "jaffle_shop"]}
          example_heap).2).2 !! 0 = Some m
    ∧ m !! "AIRFLOW_CTX_DAG_ID" = Some (PyStr "jaffle_shop").
Proof.
  destruct (context_variables_stay 0 {["DBT_TARGET" := PyStr "dev"]} ∅ ∅
              {["AIRFLOW_CTX_DAG_ID" := "jaffle_shop"]}
              {["AIRFLOW_CTX_TRY_NUMBER" := "2"]} example_heap)
    as (m & Hm & Hk); [vm_compute; reflexivity |].
  exists m. split; [exact Hm |].
  apply Hk; vm_compute; reflexivity.
Defined.

End EnvObjectsFacts.

(** * The keyword-argument helpers of [converter.py] *)

Module Kwargs.

(** [inspect.getfullargspec(DbtToAirflowConverter.__init__).args]: the named
    parameters of [__init__], [self] included; [*args] and [**kwargs] are not
    among them. *)
Definition specific_args_keys : list string :=
  ["self"; "dbt_project_name"; "profile_config"; "dag"; "task_group"; "dbt_args";
   "operator_args"; "emit_datasets"; "dbt_root_path"; "dbt_models_dir";
   "dbt_seeds_dir"; "dbt_snapshots_dir"; "test_behavior"; "select"; "exclude";
   "execution_mode"; "load_mode"; "manifest_path"; "on_warning_callback"].

Section Kwargs.
Context {Any : Type}.

(** The loop over [kwargs.items()] that fills [new_kwargs]. *)
Definition specific_kwargs (kwargs : gmap string Any) : gmap string Any :=
  map_fold
    (λ arg_key arg_value new_kwargs,
       if decide (arg_key ∈ specific_args_keys)
       then <[arg_key := arg_value]> new_kwargs
       else new_kwargs)
    ∅ kwargs.

Definition airflow_kwargs (kwargs : gmap string Any) : gmap string Any :=
  let non_airflow_kwargs := specific_kwargs kwargs in
  map_fold
    (λ arg_key arg_value new_kwargs,
       if decide (non_airflow_kwargs !! arg_key = None)
       then <[arg_key := arg_value]> new_kwargs
       else new_kwargs)
    ∅ kwargs.

End Kwargs.

End Kwargs.

Module KwargsFacts.
Import Kwargs.

Section Facts.
Context {Any : Type}.

(** A loop that copies the entries whose key passes a test. *)
Lemma copy_loop_lookup (P : string → Prop) `{!∀ k, Decision (P k)}
    (kwargs : gmap string Any) (k : string) :
  map_fold (λ arg_key (arg_value : Any) (new_kwargs : gmap string Any),
              if decide (P arg_key) then <[arg_key := arg_value]> new_kwargs
              else new_kwargs) ∅ kwargs !! k
  = if decide (P k) then kwargs !! k else None.
Proof.
  revert k.
  apply (map_fold_weak_ind (λ (r : gmap string Any) (m : gmap string Any),
           ∀ k, r !! k = if decide (P k) then m !! k else None)).
  - intros k. rewrite !lookup_empty. by destruct (decide (P k)).
  - intros i x m r Hi IH k. destruct (decide (P i)) as [Hp | Hp].
    + destruct (decide (k = i)) as [-> | Hne].
      * rewrite !lookup_insert_eq. by rewrite decide_True.
      * rewrite !lookup_insert_ne by done. apply IH.
    + rewrite IH. destruct (decide (P k)) as [Hk | Hk]; [| done].
      rewrite lookup_insert_ne; [done |]. by intros ->.
Qed.

Lemma specific_kwargs_lookup (kwargs : gmap string Any) (k : string) :
  specific_kwargs kwargs !! k
  = if decide (k ∈ specific_args_keys) then kwargs !! k else None.
Proof.
  exact (@copy_loop_lookup (λ k, k ∈ specific_args_keys)
           (λ k, decide (k ∈ specific_args_keys)) kwargs k).
Qed.

Lemma airflow_kwargs_lookup (kwargs : gmap string Any) (k : string) :
  airflow_kwargs kwargs !! k
  = if decide (k ∈ specific_args_keys) then None else kwargs !! k.
Proof.
  transitivity (if decide (specific_kwargs kwargs !! k = None)
                then kwargs !! k else None).
  { exact (@copy_loop_lookup (λ k, specific_kwargs kwargs !! k = None)
             (λ k, decide (specific_kwargs kwargs !! k = None)) kwargs k). }
  rewrite specific_kwargs_lookup.
  destruct (decide (k ∈ specific_args_keys)).
  - destruct (kwargs !! k) eqn:Hk.
    + by rewrite decide_False.
    + by rewrite decide_True.
  - by rewrite decide_True.
Qed.

(** X11. [specific_kwargs] keeps exactly the entries whose key is a named
    parameter of [DbtToAirflowConverter.__init__], with their values, and
    [airflow_kwargs] keeps exactly the other entries. *)
Theorem kwargs_split_by_name (kwargs : gmap string Any) (k : string) :
  (k ∈ specific_args_keys →
   specific_kwargs kwargs !! k = kwargs !! k ∧ airflow_kwargs kwargs !! k = None)
  ∧ (k ∉ specific_args_keys →
     specific_kwargs kwargs !! k = None ∧ airflow_kwargs kwargs !! k = kwargs !! k).
Proof.
  rewrite specific_kwargs_lookup, airflow_kwargs_lookup.
  split; intros Hk; [by rewrite !decide_True by done | by rewrite !decide_False by done].
Qed.

(** X12. The two helpers split the keyword arguments: no key is in both
    results, and the two results together are the arguments given. *)
Theorem kwargs_partition (kwargs : gmap string Any) :
  specific_kwargs kwargs ##ₘ airflow_kwargs kwargs
  ∧ specific_kwargs kwargs ∪ airflow_kwargs kwargs = kwargs.
Proof.
  assert (Hdisj : specific_kwargs kwargs ##ₘ airflow_kwargs kwargs).
  { apply map_disjoint_spec. intros k x y.
    rewrite specific_kwargs_lookup, airflow_kwargs_lookup.
    by destruct (decide (k ∈ specific_args_keys)). }
  split; [exact Hdisj |].
  apply map_eq. intros k. rewrite lookup_union.
  rewrite specific_kwargs_lookup, airflow_kwargs_lookup.
  destruct (decide (k ∈ specific_args_keys)), (kwargs !! k); done.
Qed.

(** X13. Either helper applied twice is the helper applied once, and either
    helper applied to the result of the other gives the empty dictionary. *)
Theorem kwargs_helpers_compose (kwargs : gmap string Any) :
  specific_kwargs (specific_kwargs kwargs) = specific_kwargs kwargs
  ∧ airflow_kwargs (airflow_kwargs kwargs) = airflow_kwargs kwargs
  ∧ specific_kwargs (airflow_kwargs kwargs) = ∅
  ∧ airflow_kwargs (specific_kwargs kwargs) = ∅.
Proof.
  split_and!; apply map_eq; intros k;
    rewrite ?lookup_empty, ?specific_kwargs_lookup, ?airflow_kwargs_lookup,
      ?specific_kwargs_lookup;
    by destruct (decide (k ∈ specific_args_keys)).
Qed.

End Facts.

Example example_kwargs :
  let kwargs : gmap string nat := {["dag_id" := 1; "select" := 2; "schedule" := 3]} in
  specific_kwargs kwargs = {["select" := 2]}
  ∧ airflow_kwargs kwargs = {["dag_id" := 1; "schedule" := 3]}.
Proof. split; vm_compute; reflexivity. Qed.

Lemma kwargs_split_by_name_witness :
  specific_kwargs ({["dag_id" := 1; "select" := 2]} : gmap string nat) !! "select"
  = Some 2
  ∧ airflow_kwargs ({["dag_id" := 1; "select" := 2]} : gmap string nat) !! "dag_id"
    = Some 1.
Proof.
  split.
  - destruct (kwargs_split_by_name ({["dag_id" := 1; "select" := 2]} : gmap string nat)
                "select") as [Hin _].
    destruct Hin as [-> _]; [| vm_compute; reflexivity].
    apply (bool_decide_eq_true_1 ("select" ∈ specific_args_keys)).
    vm_compute. reflexivity.
  - destruct (kwargs_split_by_name ({["dag_id" := 1; "select" := 2]} : gmap string nat)
                "dag_id") as [_ Hout].
    destruct Hout as [_ ->]; [| vm_compute; reflexivity].
    apply (bool_decide_eq_false_1 ("dag_id" ∈ specific_args_keys)).
    vm_compute. reflexivity.
Defined.

End KwargsFacts.

(** * Further properties of the converter *)

Module ConverterExtras.
Import Converter ConverterFacts.

Section Extras.
Context (ext : Externals).

(** ** [validate_arguments] *)

Definition schema_message : string :=
  "The `schema` argument is no longer supported. Please use the `profile_args` instead.".

(** The items found under [field] in both lists. *)
Definition common_items (selected excluded : list string) (field : string) : gset string :=
  list_to_set (retrieve_by_label ext selected field)
  ∩ list_to_set (retrieve_by_label ext excluded field).

Lemma validate_arguments_schema (selected excluded : list string)
    (task_args : gmap string (Any ext)) :
  ¬ selectors_overlap ext selected excluded →
  is_Some (task_args !! "schema") →
  validate_arguments ext selected excluded task_args
  = Raise (AirflowException schema_message).
Proof.
  intros Hno Hschema. unfold validate_arguments, validate_fields.
  rewrite !validate_field_disjoint by (intros Ho; apply Hno; first [by left | by right]).
  by rewrite decide_True.
Qed.

Lemma validate_arguments_raises (selected excluded : list string)
    (task_args : gmap string (Any ext)) :
  selectors_overlap ext selected excluded ∨ is_Some (task_args !! "schema") →
  ∃ msg, validate_arguments ext selected excluded task_args
         = Raise (AirflowException msg).
Proof.
  intros Hcase.
  destruct (overlap_in_dec ext selected excluded "tags") as [Ht | Ht];
    [apply validate_arguments_overlap; by left |].
  destruct (overlap_in_dec ext selected excluded "paths") as [Hp | Hp];
    [apply validate_arguments_overlap; by right |].
  assert (Hno : ¬ selectors_overlap ext selected excluded) by (by intros [? | ?]).
  destruct Hcase as [Hover | Hschema]; [done |].
  exists schema_message. by apply validate_arguments_schema.
Qed.

(** X14. [validate_arguments] returns exactly when no item is found under the
    same label in both lists and the task arguments have no [schema] key; with
    a [schema] key and no such item it raises the message that [schema] is no
    longer supported. *)
Theorem validate_arguments_returns_iff (selected excluded : list string)
    (task_args : gmap string (Any ext)) :
  (validate_arguments ext selected excluded task_args = Ret tt
   ↔ ¬ selectors_overlap ext selected excluded ∧ task_args !! "schema" = None)
  ∧ (¬ selectors_overlap ext selected excluded → is_Some (task_args !! "schema") →
     validate_arguments ext selected excluded task_args
     = Raise (AirflowException schema_message)).
Proof.
  split; [| apply validate_arguments_schema].
  split.
  - intros Hret.
    assert (Hno : ¬ (selectors_overlap ext selected excluded
                     ∨ is_Some (task_args !! "schema"))).
    { intros Hcase. apply (validate_arguments_raises _ _ task_args) in Hcase as [msg Hmsg].
      congruence. }
    split; [by intros ?; apply Hno; left |].
    destruct (task_args !! "schema") eqn:Hs; [| done].
    exfalso. apply Hno. right. by eexists.
  - intros [Hno Hschema]. by apply validate_arguments_pass.
Qed.



Lemma validate_field_message (selected excluded : list string) (field : string) :
  overlap_in ext selected excluded field →
  validate_field ext selected excluded field
  = Raise (AirflowException
             ("Can't specify the same " +:+ drop_last field
              +:+ " in `select` and `exclude`: "
              +:+ format_set ext (common_items selected excluded field))).
Proof.
  intros Hover. destruct (validate_field_overlap ext _ _ _ Hover) as [msg Hmsg].
  unfold validate_field in *. cbv zeta in *. unfold common_items.
  destruct (decide (_ ≠ _)); [done | discriminate Hmsg].
Qed.

(** X16. Tags are looked at first: an item in both lists under "tags" makes
    [validate_arguments] raise the message about the same tag, printing the
    common tags, whatever the paths and the task arguments are; an item in
    both lists under "paths" only makes it raise the message about the same
    path, printing the common paths, whether or not there is a [schema] key. *)
Theorem validate_arguments_messages (selected excluded : list string)
    (task_args : gmap string (Any ext)) :
  (overlap_in ext selected excluded "tags" →
   validate_arguments ext selected excluded task_args
   = Raise (AirflowException
              ("Can't specify the same tag in `select` and `exclude`: "
               +:+ format_set ext (common_items selected excluded "tags"))))
  ∧ (¬ overlap_in ext selected excluded "tags" →
     overlap_in ext selected excluded "paths" →
     validate_arguments ext selected excluded task_args
     = Raise (AirflowException
                ("Can't specify the same path in `select` and `exclude`: "
                 +:+ format_set ext (common_items selected excluded "paths")))).
Proof.
  unfold validate_arguments, validate_fields. split.
  - intros Ht. by rewrite (validate_field_message _ _ _ Ht).
  - intros Ht Hp.
    by rewrite (validate_field_disjoint _ _ _ _ Ht), (validate_field_message _ _ _ Hp).
Qed.

(** ** [DbtToAirflowConverter.__init__] *)

Definition profile_config_message : string :=
  "When using local or virtualenv execution mode, a ProfileConfig must be provided to render the profile.".

(** Everything [__init__] does before it calls [build_airflow_graph]: the
    call it is about to make, or the exception raised on the way. *)
Definition before_build (a : InitArgs ext) : outcome (BuildCall ext) :=
  if in_local_or_virtualenv ext (execution_mode ext a)
     && match profile_config ext a with None => true | Some _ => false end
  then Raise (ValueError profile_config_message)
  else
    match convert_value_to_enum (test_behavior ext a) (TestBehavior_of ext) "TestBehavior" with
    | Raise e => Raise e
    | Ret behavior =>
    match convert_value_to_enum (execution_mode ext a) (ExecutionMode_of ext) "ExecutionMode" with
    | Raise e => Raise e
    | Ret mode =>
    match convert_value_to_enum (load_mode ext a) (LoadMode_of ext) "LoadMode" with
    | Raise e => Raise e
    | Ret loading =>
    match new_DbtProject ext (dbt_project_name ext a) (dbt_root_path ext a)
            (dbt_models_dir ext a) (dbt_seeds_dir ext a) (dbt_snapshots_dir ext a)
            (manifest_path ext a) with
    | Raise e => Raise e
    | Ret project =>
    match new_DbtGraph ext project (or_empty (exclude ext a)) (or_empty (select ext a))
            (default (get_system_dbt ext) (dbt_args ext a !! "dbt_executable_path")) with
    | Raise e => Raise e
    | Ret graph =>
    match DbtGraph_load ext graph loading mode with
    | Raise e => Raise e
    | Ret loaded =>
    match validate_arguments ext (or_empty (select ext a)) (or_empty (exclude ext a))
            (make_task_args ext a project) with
    | Raise e => Raise e
    | Ret _ =>
        Ret {| b_nodes := DbtGraph_nodes ext loaded;
               b_dag := dag_or_task_group_dag ext (dag ext a) (task_group ext a);
               b_task_group := task_group ext a;
               b_execution_mode := mode;
               b_task_args := make_task_args ext a project;
               b_test_behavior := behavior;
               b_dbt_project_name := DbtProject_name ext project;
               b_on_warning_callback := on_warning_callback ext a;
               b_emit_datasets := emit_datasets ext a |}
    end end end end end end end.

Lemma init_run (built : BuildCall ext → outcome unit) (a : InitArgs ext)
    (calls : list (BuildCall ext)) :
  init ext built a calls
  = match before_build a with
    | Raise e => (Raise e, calls)
    | Ret call => (built call, calls ++ [call])
    end.
Proof.
  unfold init, before_build, bind, lift, raise, ret, build_airflow_graph.
  destruct (_ && _); [done |].
  destruct (convert_value_to_enum _ _ _); [| done].
  destruct (convert_value_to_enum _ _ _); [| done].
  destruct (convert_value_to_enum _ _ _); [| done].
  destruct (new_DbtProject _ _ _ _ _ _ _) as [project |]; [| done].
  destruct (new_DbtGraph _ _ _ _ _); [| done].
  destruct (DbtGraph_load _ _ _ _); [| done].
  by destruct (validate_arguments _ _ _ _) as [[] |].
Qed.

Lemma task_args_lookup (a : InitArgs ext) (project : DbtProject ext) (k : string) :
  make_task_args ext a project !! k
  = if decide (k = "profile_config")
    then Some (any_of_profile_config ext (profile_config ext a))
    else if decide (k = "project_dir") then Some (DbtProject_dir ext project)
    else match operator_args ext a !! k with
         | Some v => Some v
         | None => dbt_args ext a !! k
         end.
Proof.
  unfold make_task_args, py_update.
  destruct (decide (k = "profile_config")) as [-> | H1]; [by rewrite lookup_insert_eq |].
  rewrite lookup_insert_ne by done.
  destruct (decide (k = "project_dir")) as [-> | H2]; [by rewrite lookup_insert_eq |].
  rewrite lookup_insert_ne by done. rewrite lookup_union.
  by destruct (operator_args ext a !! k), (dbt_args ext a !! k).
Qed.

Lemma before_build_call (a : InitArgs ext) (call : BuildCall ext) :
  before_build a = Ret call →
  ∃ project,
    validate_arguments ext (or_empty (select ext a)) (or_empty (exclude ext a))
      (make_task_args ext a project) = Ret tt
    ∧ b_task_args ext call = make_task_args ext a project
    ∧ b_dbt_project_name ext call = DbtProject_name ext project
    ∧ b_task_group ext call = task_group ext a
    ∧ b_emit_datasets ext call = emit_datasets ext a
    ∧ b_on_warning_callback ext call = on_warning_callback ext a.
Proof.
  unfold before_build.
  destruct (_ && _); [done |].
  destruct (convert_value_to_enum _ _ _); [| done].
  destruct (convert_value_to_enum _ _ _); [| done].
  destruct (convert_value_to_enum _ _ _); [| done].
  destruct (new_DbtProject _ _ _ _ _ _ _) as [project |]; [| done].
  destruct (new_DbtGraph _ _ _ _ _); [| done].
  destruct (DbtGraph_load _ _ _ _); [| done].
  destruct (validate_arguments _ _ _ _) as [[] |] eqn:Hv; [| done].
  intros [= <-]. by exists project.
Qed.

(** X17. With [execution_mode] given as the string "local" or "virtualenv"
    and no [profile_config], [__init__] raises the [ValueError] asking for a
    ProfileConfig, whatever the other arguments are, before it loads the
    project and without a call to [build_airflow_graph]. *)
Theorem init_needs_profile_config (built : BuildCall ext → outcome unit)
    (a : InitArgs ext) (calls : list (BuildCall ext)) (mode : string) :
  execution_mode ext a = inl mode →
  mode = "local" ∨ mode = "virtualenv" →
  profile_config ext a = None →
  init ext built a calls = (Raise (ValueError profile_config_message), calls).
Proof.
  intros Hmode Hcase Hprofile. rewrite init_run. unfold before_build.
  rewrite Hmode, Hprofile. cbn [in_local_or_virtualenv].
  destruct Hcase as [-> | ->].
  - by rewrite (bool_decide_eq_true_2 ("local" = "local")) by done.
  - rewrite (bool_decide_eq_true_2 ("virtualenv" = "virtualenv")) by done.
    by rewrite orb_true_r.
Qed.

(** X18. A [test_behavior] string that is no value of [TestBehavior] makes
    [__init__] raise [UserInputError], naming the string and the type, and not
    the enum's [ValueError]; so does, after a good [test_behavior], an
    [execution_mode] string that is no value of [ExecutionMode]. Nothing is
    built in either case. *)
Theorem init_rejects_unknown_values (built : BuildCall ext → outcome unit)
    (a : InitArgs ext) (calls : list (BuildCall ext)) (value : string) :
  (in_local_or_virtualenv ext (execution_mode ext a)
   && match profile_config ext a with None => true | Some _ => false end) = false →
  (test_behavior ext a = inl value → TestBehavior_of ext value = None →
   init ext built a calls
   = (Raise (UserInputError
               ("The given value " +:+ value
                +:+ " is not compatible with the type TestBehavior")), calls))
  ∧ (∀ behavior,
       convert_value_to_enum (test_behavior ext a) (TestBehavior_of ext) "TestBehavior"
       = Ret behavior →
       execution_mode ext a = inl value → ExecutionMode_of ext value = None →
       init ext built a calls
       = (Raise (UserInputError
                   ("The given value " +:+ value
                    +:+ " is not compatible with the type ExecutionMode")), calls)).
Proof.
  intros Hguard. split.
  - intros Hb Hnone. rewrite init_run. unfold before_build.
    rewrite Hguard, Hb. cbn. by rewrite Hnone.
  - intros behavior Hb Hm Hnone. rewrite init_run. unfold before_build.
    rewrite Hguard, Hb, Hm. cbn. by rewrite Hnone.
Qed.

(** X19. A [schema] key in [dbt_args] or in [operator_args] makes [__init__]
    raise without a call to [build_airflow_graph]. *)
Theorem init_rejects_schema (built : BuildCall ext → outcome unit)
    (a : InitArgs ext) (calls : list (BuildCall ext)) :
  is_Some (dbt_args ext a !! "schema") ∨ is_Some (operator_args ext a !! "schema") →
  ∃ e, init ext built a calls = (Raise e, calls).
Proof.
  intros Hschema. rewrite init_run.
  destruct (before_build a) as [call |] eqn:Hb; [| by eexists].
  exfalso. apply before_build_call in Hb as (project & Hv & _).
  destruct (validate_arguments_raises (or_empty (select ext a))
              (or_empty (exclude ext a)) (make_task_args ext a project)) as [msg Hmsg];
    [| congruence].
  right. rewrite task_args_lookup.
  rewrite decide_False by discriminate. rewrite decide_False by discriminate.
  destruct Hschema as [[v Hv'] | [v Hv']]; rewrite Hv'.
  - by destruct (operator_args ext a !! "schema").
  - by eexists.
Qed.

(** X20. [__init__] calls [build_airflow_graph] at most once, as its last
    step, and its outcome is then that call's. The task arguments of the call
    passed the validation, so have no [schema] key; in them [profile_config]
    and [project_dir] are the converter's own, whatever the two argument
    dictionaries hold under these names, and for any other key
    [operator_args] goes before [dbt_args]. *)
Theorem init_builds_once (built : BuildCall ext → outcome unit)
    (a : InitArgs ext) (calls : list (BuildCall ext)) :
  ((∃ e, (init ext built a calls).1 = Raise e) ∧ (init ext built a calls).2 = calls)
  ∨ ∃ call project,
      (init ext built a calls).2 = calls ++ [call]
      ∧ (init ext built a calls).1 = built call
      ∧ ¬ selectors_overlap ext (or_empty (select ext a)) (or_empty (exclude ext a))
      ∧ b_task_args ext call !! "schema" = None
      ∧ b_task_args ext call !! "profile_config"
        = Some (any_of_profile_config ext (profile_config ext a))
      ∧ b_task_args ext call !! "project_dir" = Some (DbtProject_dir ext project)
      ∧ ∀ k, k ≠ "profile_config" → k ≠ "project_dir" →
             b_task_args ext call !! k
             = match operator_args ext a !! k with
               | Some v => Some v
               | None => dbt_args ext a !! k
               end.
Proof.
  rewrite init_run.
  destruct (before_build a) as [call |] eqn:Hb; [| left; eauto].
  right. apply before_build_call in Hb as (project & Hv & Hargs & _).
  exists call, project. rewrite Hargs.
  apply validate_arguments_returns_iff in Hv as [Hno Hschema].
  split_and!; try done.
  - rewrite task_args_lookup. by rewrite decide_True.
  - rewrite task_args_lookup. rewrite decide_False by discriminate. by rewrite decide_True.
  - intros k H1 H2. rewrite task_args_lookup. by rewrite !decide_False by done.
Qed.

(** X21. When the profile guard passes, the three values convert, the
    project and its graph are made and loaded, no item is in both lists under
    a label and neither argument dictionary has a [schema] key, [__init__]
    makes its one call to [build_airflow_graph], on the nodes of the loaded
    graph, with the converted execution mode and test behaviour, and returns
    or raises as that call does. *)
Theorem init_builds (built : BuildCall ext → outcome unit) (a : InitArgs ext)
    (calls : list (BuildCall ext)) (behavior : TestBehavior ext)
    (mode : ExecutionMode ext) (loading : LoadMode ext) (project : DbtProject ext)
    (graph loaded : DbtGraph ext) :
  (in_local_or_virtualenv ext (execution_mode ext a)
   && match profile_config ext a with None => true | Some _ => false end) = false →
  convert_value_to_enum (test_behavior ext a) (TestBehavior_of ext) "TestBehavior"
  = Ret behavior →
  convert_value_to_enum (execution_mode ext a) (ExecutionMode_of ext) "ExecutionMode"
  = Ret mode →
  convert_value_to_enum (load_mode ext a) (LoadMode_of ext) "LoadMode" = Ret loading →
  new_DbtProject ext (dbt_project_name ext a) (dbt_root_path ext a) (dbt_models_dir ext a)
    (dbt_seeds_dir ext a) (dbt_snapshots_dir ext a) (manifest_path ext a) = Ret project →
  new_DbtGraph ext project (or_empty (exclude ext a)) (or_empty (select ext a))
    (default (get_system_dbt ext) (dbt_args ext a !! "dbt_executable_path")) = Ret graph →
  DbtGraph_load ext graph loading mode = Ret loaded →
  ¬ selectors_overlap ext (or_empty (select ext a)) (or_empty (exclude ext a)) →
  dbt_args ext a !! "schema" = None →
  operator_args ext a !! "schema" = None →
  ∃ call,
    init ext built a calls = (built call, calls ++ [call])
    ∧ b_nodes ext call = DbtGraph_nodes ext loaded
    ∧ b_execution_mode ext call = mode
    ∧ b_test_behavior ext call = behavior
    ∧ b_dag ext call = dag_or_task_group_dag ext (dag ext a) (task_group ext a)
    ∧ b_task_args ext call = make_task_args ext a project.
Proof.
  intros Hguard Hb Hm Hl Hp Hg Hload Hno Hd Ho.
  rewrite init_run. unfold before_build.
  rewrite Hguard, Hb, Hm, Hl, Hp, Hg, Hload.
  rewrite validate_arguments_pass; [by eexists | exact Hno |].
  rewrite task_args_lookup. rewrite decide_False by discriminate.
  rewrite decide_False by discriminate. by rewrite Ho, Hd.
Qed.

End Extras.

(** ** Examples *)

Definition example_args_with (profile : option unit) (behavior mode : string)
    (selected excluded : option (list string)) (operator_args : gmap string string)
    : InitArgs example_ext :=
  Build_InitArgs example_ext
    "jaffle_shop" profile (Some tt) None ∅ operator_args true
    "/usr/local/airflow/dags/dbt" None None None
    (inl behavior) selected excluded (inl mode) (inl "automatic") None None.

Lemma example_no_overlap :
  ¬ selectors_overlap example_ext ["tag:nightly"] ["tag:slow"; "path:models/old"].
Proof.
  intros [(item & Hs & He) | (item & Hs & He)]; vm_compute in Hs, He.
  - apply list_elem_of_singleton in Hs as ->.
    apply list_elem_of_singleton in He. discriminate He.
  - by apply elem_of_nil in Hs.
Qed.

Lemma example_tag_overlap :
  overlap_in example_ext ["tag:nightly"; "path:models/a"]
    ["path:models/a"; "tag:nightly"] "tags".
Proof. exists "nightly". split; vm_compute; apply list_elem_of_here. Qed.

Lemma validate_arguments_returns_iff_witness :
  validate_arguments example_ext ["tag:nightly"] ["tag:slow"; "path:models/old"]
    {["schema" := "public"]}
  = Raise (AirflowException schema_message).
Proof.
  apply (validate_arguments_returns_iff example_ext ["tag:nightly"]
           ["tag:slow"; "path:models/old"] {["schema" := "public"]}).
  - exact example_no_overlap.
  - vm_compute. by eexists.
Defined.

Lemma validate_arguments_messages_witness :
  validate_arguments example_ext ["tag:nightly"; "path:models/a"]
    ["path:models/a"; "tag:nightly"] {["schema" := "public"]}
  = Raise (AirflowException
             ("Can't specify the same tag in `select` and `exclude`: "
              +:+ format_set example_ext
                    (common_items example_ext ["tag:nightly"; "path:models/a"]
                       ["path:models/a"; "tag:nightly"] "tags"))).
Proof.
  apply (validate_arguments_messages example_ext ["tag:nightly"; "path:models/a"]
           ["path:models/a"; "tag:nightly"] {["schema" := "public"]}).
  exact example_tag_overlap.
Defined.

Lemma init_needs_profile_config_witness :
  init example_ext (λ _, Ret tt)
    (example_args_with None "no such behaviour" "virtualenv" None None ∅) []
  = (Raise (ValueError profile_config_message), []).
Proof.
  apply (init_needs_profile_config example_ext (λ _, Ret tt)
           (example_args_with None "no such behaviour" "virtualenv" None None ∅) []
           "virtualenv").
  - reflexivity.
  - right. reflexivity.
  - reflexivity.
Defined.

Lemma init_rejects_unknown_values_witness :
  init example_ext (λ _, Ret tt)
    (example_args_with (Some tt) "sometimes" "local" None None ∅) []
  = (Raise (UserInputError
              "The given value sometimes is not compatible with the type TestBehavior"),
     [])
  ∧ init example_ext (λ _, Ret tt)
      (example_args_with (Some tt) "after_all" "localhost" None None ∅) []
    = (Raise (UserInputError
                "The given value localhost is not compatible with the type ExecutionMode"),
       []).
Proof.
  split.
  - apply (init_rejects_unknown_values example_ext (λ _, Ret tt)
             (example_args_with (Some tt) "sometimes" "local" None None ∅) [] "sometimes").
    + vm_compute. reflexivity.
    + reflexivity.
    + vm_compute. reflexivity.
  - apply (init_rejects_unknown_values example_ext (λ _, Ret tt)
             (example_args_with (Some tt) "after_all" "localhost" None None ∅) []
             "localhost") with (behavior := "after_all").
    + vm_compute. reflexivity.
    + vm_compute. reflexivity.
    + reflexivity.
    + vm_compute. reflexivity.
Defined.

Lemma init_rejects_schema_witness :
  ∃ e, init example_ext (λ _, Ret tt)
         (example_args_with (Some tt) "after_each" "local" None None
            {["schema" := "public"]}) []
       = (Raise e, []).
Proof.
  apply (init_rejects_schema example_ext (λ _, Ret tt)
           (example_args_with (Some tt) "after_each" "local" None None
              {["schema" := "public"]}) []).
  right. vm_compute. by eexists.
Defined.

Lemma init_builds_witness :
  ∃ call,
    init example_ext (λ _, Ret tt)
      (example_args_with (Some tt) "after_each" "local" (Some ["tag:nightly"])
         (Some ["tag:slow"; "path:models/old"]) ∅) []
    = (Ret tt, [call])
    ∧ b_nodes example_ext call = ["tag:nightly"].
Proof.
  destruct (init_builds example_ext (λ _, Ret tt)
              (example_args_with (Some tt) "after_each" "local" (Some ["tag:nightly"])
                 (Some ["tag:slow"; "path:models/old"]) ∅) []
              "after_each" "local" "automatic"
              ("jaffle_shop", "/usr/local/airflow/dags/dbt/jaffle_shop")
              ["tag:nightly"] ["tag:nightly"])
    as (call & Hrun & Hnodes & _);
    [vm_compute; reflexivity | vm_compute; reflexivity | vm_compute; reflexivity
    | vm_compute; reflexivity | vm_compute; reflexivity | vm_compute; reflexivity
    | vm_compute; reflexivity | exact example_no_overlap | reflexivity | reflexivity |].
  exists call. split; [exact Hrun | exact Hnodes].
Defined.

End ConverterExtras.
